(** * The D-Wave annealer server: registry and tool dispatcher

    A shallow embedding of [src/mcp_server_dwave/server.py]: the in-memory
    problem/result registry ([DWaveServer]) and the tool dispatcher
    ([call_tool]), with the properties the specification states about them.

    Conventions of the embedding.
    - Python values are the inductive type [pyval]; text is [string], its
      characters the code points below 256, which covers every key the
      server parses (digits, signs, commas, parentheses, blanks). The
      interpreter's cap on the length of an integer literal (4300 digits
      unless configured otherwise) is not modelled.
    - A Python [float] is modelled by the rational it denotes (type [Q]):
      rounding, infinities and NaN are outside the model. [float()] of a
      string is the interpreter's literal parser, kept as the section
      variable [float_of_str].
    - [uuid.uuid4()] draws from the process's generator: the n-th identifier
      it hands out is [uuid4 n], a section variable, and the number of draws
      made so far is part of the state.
    - A raised exception is a value of [exn], one constructor per raise site;
      a call returns an [outcome] together with the state it leaves behind,
      so that what was mutated before a raise stays mutated.
    - [McpError] is the protocol library's exception. In the releases the
      HTTP adapter and the client need (those with the streamable HTTP
      transport) its constructor takes an error record and reads its
      [message]; the server hands it a text, which has none, so that
      [McpError(text)] builds nothing and raises [AttributeError]. Raised
      inside the [except] clause, that error has the exception being
      handled as its context.
    - A process runs one server, as [serve] builds it: the configuration
      object is the server's own, shared with no other.
    - The protocol library hands [call_tool] arguments decoded from JSON,
      so [json.dumps] of a result does not raise; the embedding keeps the
      value that is serialised in place of its text. *)

From Stdlib Require Import ZArith QArith String Ascii List Bool Lia.
From Stdlib Require Import Decimal DecimalString DecimalZ DecimalPos.
From stdpp Require Import base option list strings pretty gmap fin_maps.

Set Warnings "-register-all".
Local Open Scope Z_scope.
Local Open Scope string_scope.

(** ** Characters and strings *)

(** The blanks [int()] drops around a literal: tab .. carriage return and
    the space, and, of the characters above 127, the two Unicode blanks
    U+0085 and U+00A0. (The separators 0x1c .. 0x1f, blanks for
    [str.isspace], are none for [int()].) *)
Definition is_space (a : ascii) : bool :=
  let n := N_of_ascii a in
  ((9 <=? n)%N && (n <=? 13)%N) || (n =? 32)%N || (n =? 133)%N || (n =? 160)%N.

Definition is_digit (a : ascii) : bool :=
  let n := N_of_ascii a in (48 <=? n)%N && (n <=? 57)%N.

(** The character set of [k.strip("()")]. *)
Definition is_paren (a : ascii) : bool :=
  Ascii.eqb a "(" || Ascii.eqb a ")".

Fixpoint lstrip (p : ascii -> bool) (s : string) : string :=
  match s with
  | String a r => if p a then lstrip p r else s
  | EmptyString => EmptyString
  end.

Fixpoint rstrip (p : ascii -> bool) (s : string) : string :=
  match s with
  | String a r =>
      match rstrip p r with
      | EmptyString => if p a then EmptyString else String a EmptyString
      | r' => String a r'
      end
  | EmptyString => EmptyString
  end.

(** [s.strip(chars)]: every leading and trailing character of the set goes. *)
Definition strip (p : ascii -> bool) (s : string) : string :=
  rstrip p (lstrip p s).

(** ["," in k] *)
Fixpoint contains (c : ascii) (s : string) : bool :=
  match s with
  | String a r => Ascii.eqb a c || contains c r
  | EmptyString => false
  end.

(** [s.split(c)] for a one-character separator: never the empty list. *)
Fixpoint split (c : ascii) (s : string) : list string :=
  match s with
  | String a r =>
      if Ascii.eqb a c then EmptyString :: split c r
      else match split c r with
           | h :: t => String a h :: t
           | [] => [String a EmptyString]
           end
  | EmptyString => [EmptyString]
  end.

(** ** [int(str)] and [str(int)] *)

(** The digit part of an integer literal: at least one digit, and an
    underscore only between two digits. [prev] says whether the character
    just read was a digit. *)
Fixpoint digits_ok (prev : bool) (s : string) : bool :=
  match s with
  | String a r =>
      if is_digit a then digits_ok true r
      else if Ascii.eqb a "_" then prev && digits_ok false r
      else false
  | EmptyString => prev
  end.

Fixpoint drop_underscores (s : string) : string :=
  match s with
  | String a r =>
      if Ascii.eqb a "_" then drop_underscores r
      else String a (drop_underscores r)
  | EmptyString => EmptyString
  end.

(** [int(s)] in base ten: blanks around the literal are dropped, one sign
    may lead it, leading zeros are fine. [None] is the [ValueError]. *)
Definition int_of_str (s : string) : option Z :=
  let t := strip is_space s in
  let '(neg, body) :=
    match t with
    | String "-" r => (true, r)
    | String "+" r => (false, r)
    | _ => (false, t)
    end in
  if digits_ok false body then
    match NilEmpty.uint_of_string (drop_underscores body) with
    | Some d => Some (if neg then - Z.of_uint d else Z.of_uint d)
    | None => None
    end
  else None.

(** [str(z)] of an integer: its decimal digits, a minus sign before a
    negative one. *)
Definition str_of_int (z : Z) : string :=
  NilZero.string_of_int (Z.to_int z).

(** ** Python values *)

(** The values a call can carry: what JSON delivers (None, booleans,
    numbers, text, arrays, objects) and the tuples a direct caller can use
    as keys. A dict keeps its entries in insertion order. *)
Inductive pyval : Type :=
| PNone
| PBool (b : bool)
| PInt (z : Z)
| PFloat (q : Q)
| PStr (s : string)
| PTuple (l : list pyval)
| PList (l : list pyval)
| PDict (d : list (pyval * pyval)).

(** The number a value stands for, when it is one ([True == 1 == 1.0]). *)
Definition py_num (x : pyval) : option Q :=
  match x with
  | PBool b => Some (inject_Z (if b then 1 else 0))
  | PInt z => Some (inject_Z z)
  | PFloat q => Some q
  | _ => None
  end.

(** [x == y]. Numbers compare by value across bool, int and float; text,
    tuples and lists structurally; dicts entry by entry whatever the order. *)
Fixpoint py_eqb (x y : pyval) : bool :=
  match x, y with
  | PNone, PNone => true
  | PStr s, PStr t => String.eqb s t
  | PTuple l, PTuple m | PList l, PList m =>
      (fix seq_eqb (l m : list pyval) : bool :=
         match l, m with
         | [], [] => true
         | a :: l', b :: m' => py_eqb a b && seq_eqb l' m'
         | _, _ => false
         end) l m
  | PDict d, PDict e =>
      Nat.eqb (length d) (length e) &&
      (fix all_in (d : list (pyval * pyval)) : bool :=
         match d with
         | [] => true
         | (k, v) :: d' =>
             existsb (fun kv => py_eqb k (fst kv) && py_eqb v (snd kv)) e
             && all_in d'
         end) d
  | _, _ =>
      match py_num x, py_num y with
      | Some a, Some b => Qeq_bool a b
      | _, _ => false
      end
  end.

(** [hash(x)] succeeds: lists and dicts have no hash, a tuple has one when
    its items do. *)
Fixpoint hashable (x : pyval) : bool :=
  match x with
  | PList _ | PDict _ => false
  | PTuple l => forallb hashable l
  | _ => true
  end.

(** ** Exceptions *)

Inductive exn_class := ValueError | TypeError | AttributeError | OverflowError.

(** One constructor per place an exception is raised: the two the registry
    raises itself, the interpreter's own, and those of the dispatcher's
    attempts to build an [McpError]. *)
Inductive exn : Type :=
| InvalidSimulatorType (simulator_type : pyval)   (* server.py:53 *)
| ProblemNotFound (problem_id : pyval)            (* server.py:134 *)
| InvalidIntLiteral (s : string)                  (* int() *)
| NotAFloat (v : pyval)                           (* float() *)
| FloatOverflow (v : pyval)                       (* float() of a huge int *)
| CannotUnpack (v : pyval)                        (* i, j = v *)
| TooManyValues                                   (* i, j = three or more *)
| Unhashable (v : pyval)                          (* hash() *)
| NoItems (v : pyval)                             (* v.items() *)
| BadOperand (v : pyval)                          (* v / 1000.0 *)
| NoMessage (text : string)           (* McpError(text), server.py:305-328:
                                         [text] has no [message] *)
| NoMessageWhile (e : exn).           (* the same at server.py:333, raised
                                         while [e] is handled *)

Definition class_of (e : exn) : exn_class :=
  match e with
  | InvalidSimulatorType _ | ProblemNotFound _ | InvalidIntLiteral _
  | TooManyValues => ValueError
  | NotAFloat (PStr _) => ValueError
  | CannotUnpack (PStr _ | PTuple _ | PList _ | PDict _) => ValueError
  | NotAFloat _ | CannotUnpack _ | Unhashable _ | BadOperand _ => TypeError
  | FloatOverflow _ => OverflowError
  | NoItems _ | NoMessage _ | NoMessageWhile _ => AttributeError
  end.

(** What a computation that may raise yields. *)
Inductive outcome (A : Type) : Type :=
| Return (a : A)
| Raise (e : exn).
Arguments Return {A} a.
Arguments Raise {A} e.

#[global] Instance outcome_ret : MRet outcome := @Return.
#[global] Instance outcome_bind : MBind outcome := fun A B k c =>
  match c with
  | Return a => k a
  | Raise e => Raise e
  end.

(** ** Built-in operations that may raise *)

(** The least integer [float()] refuses: halfway between the largest double
    and [2 ^ 1024], from where rounding to nearest leaves the doubles. *)
Definition float_limit : Z := Eval cbv in (2 ^ 1024 - 2 ^ 970)%Z.

(** [float(z)], and [z / 1000.0], raise [OverflowError]. *)
Definition int_overflows (z : Z) : bool := (float_limit <=? Z.abs z)%Z.

Definition py_int (s : string) : outcome Z :=
  match int_of_str s with
  | Some z => Return z
  | None => Raise (InvalidIntLiteral s)
  end.

Definition py_hash_check (k : pyval) : outcome unit :=
  if hashable k then Return tt else Raise (Unhashable k).

(** [v.items()] *)
Definition py_items (v : pyval) : outcome (list (pyval * pyval)) :=
  match v with
  | PDict d => Return d
  | _ => Raise (NoItems v)
  end.

(** [i, j = v]: exactly two items, whatever iterable [v] is. Text yields
    its characters, a dict its keys. *)
Definition unpack2 (v : pyval) : outcome (pyval * pyval) :=
  match v with
  | PTuple [a; b] | PList [a; b] => Return (a, b)
  | PStr (String a (String b EmptyString)) =>
      Return (PStr (String a EmptyString), PStr (String b EmptyString))
  | PDict [(a, _); (b, _)] => Return (a, b)
  | _ => Raise (CannotUnpack v)
  end.

(** [i, j = map(int, parts)]: [map] is lazy, so the third part (if any) is
    converted before the unpacking sees that there is one too many. *)
Definition unpack_ints (parts : list string) : outcome (Z * Z) :=
  match parts with
  | a :: b :: rest =>
      i ← py_int a;
      j ← py_int b;
      match rest with
      | [] => Return (i, j)
      | c :: _ => _ ← py_int c; Raise TooManyValues
      end
  | [a] => _ ← py_int a; Raise (CannotUnpack (PList [PStr a]))
  | [] => Raise (CannotUnpack (PList []))
  end.

(** ** Dicts and sets keyed by Python values *)

(** A dict whose keys are Python values, in insertion order. *)
Definition pydict (V : Type) : Type := list (pyval * V).

(** [d[k] = v]: an equal key keeps its place and its first spelling. *)
Fixpoint dict_setitem {V} (k : pyval) (v : V) (d : pydict V) : pydict V :=
  match d with
  | [] => [(k, v)]
  | (k', v') :: d' =>
      if py_eqb k' k then (k', v) :: d'
      else (k', v') :: dict_setitem k v d'
  end.

Definition dict_keys {V} (d : pydict V) : list pyval := map fst d.

Fixpoint set_add (x : pyval) (s : list pyval) : list pyval :=
  match s with
  | [] => [x]
  | y :: s' => if py_eqb y x then s else y :: set_add x s'
  end.

(** [set(l)]: the items of [l] up to [==]. *)
Definition py_set (l : list pyval) : list pyval :=
  fold_left (fun s x => set_add x s) l [].

(** [len(x)] *)
Definition len {A} (l : list A) : Z := Z.of_nat (length l).

(** ** Data model *)

(** [ServerConfig]: the attributes are assigned whatever value the caller
    passes, so they are Python values. *)
Record ServerConfig : Type := {
  use_simulator : pyval;
  simulator_type : pyval
}.

(** A stored problem: the dict built at server.py:79 (QUBO) or :113
    (Ising), its ["type"] entry read off the constructor. *)
Inductive Problem : Type :=
| QuboProblem (problem_id : string) (Q : pydict Q) (description : pyval)
| IsingProblem (problem_id : string) (h J : pydict Q) (description : pyval).

Definition problem_type (p : Problem) : string :=
  match p with
  | QuboProblem _ _ _ => "qubo"
  | IsingProblem _ _ _ _ => "ising"
  end.

(** The dict [solve_problem] builds, stores and returns (server.py:150). *)
Record Result : Type := {
  result_id : string;
  result_problem_id : pyval;
  energy : Q;
  solution : pydict Z;
  qpu_access_time : Q;
  execution_time : Q;
  total_annealing_time : Q;
  status : string
}.

(** [DWaveServer]: the configuration and the two maps, keyed by the
    identifiers [uuid4] hands out. *)
Record DWaveServer : Type := {
  config : ServerConfig;
  problems : gmap string Problem;
  results : gmap string Result
}.

(** The running process: the server object and how many identifiers the
    generator has handed out. *)
Record Process : Type := {
  server : DWaveServer;
  drawn : nat
}.

(** What the six methods return. *)
Record SimulatorStatus : Type := {
  status_use_simulator : pyval;
  status_simulator_type : pyval;
  using_simulator : pyval;
  quantum_hardware_available : bool
}.

Record ConfigUpdate : Type := {
  new_use_simulator : pyval;
  new_simulator_type : pyval;
  updated : bool
}.

Record ProblemSummary : Type := {
  created_problem_id : string;
  type : string;
  description : pyval;
  num_variables : Z
}.

Record AnnealingTimeStatus : Type := {
  min_annealing_time_ns : Z;
  max_annealing_time_ns : Z;
  current_annealing_time_ns : Z;
  total_annealing_time_ns : Z;
  time_limit : Q;
  total_annealing_time_s : Q;
  remaining_time : Q
}.

(** The value [call_tool] serialises, by the method that produced it. *)
Inductive ToolResult : Type :=
| OfStatus (r : SimulatorStatus)
| OfConfig (r : ConfigUpdate)
| OfCreate (r : ProblemSummary)
| OfSolve (r : Result)
| OfAnnealing (r : AnnealingTimeStatus).

(** [TextContent(type="text", text=json.dumps(result, indent=2))]: the
    embedding keeps the value that is serialised in place of its text. *)
Record TextContent : Type := {
  content_type : string;
  text : ToolResult
}.

(** ** Computations on the process state *)

(** A method call: its outcome and the state it leaves, raise or not. *)
Definition M (A : Type) : Type := Process -> outcome A * Process.

#[global] Instance M_ret : MRet M := fun A a w => (Return a, w).
#[global] Instance M_bind : MBind M := fun A B k c w =>
  match c w with
  | (Return a, w') => k a w'
  | (Raise e, w') => (Raise e, w')
  end.

#[global] Instance M_fmap : FMap M := fun A B f c w =>
  match c w with
  | (Return a, w') => (Return (f a), w')
  | (Raise e, w') => (Raise e, w')
  end.

Definition raise {A} (e : exn) : M A := fun w => (Raise e, w).

(** A pure computation that may raise, run inside a method. *)
Definition lift {A} (c : outcome A) : M A := fun w => (c, w).

Definition self : M DWaveServer := fun w => (Return (server w), w).

Definition update (f : DWaveServer -> DWaveServer) : M unit :=
  fun w => (Return tt, {| server := f (server w); drawn := drawn w |}).

(** [try: c except Exception as e: h e] *)
Definition try_except {A} (c : M A) (handler : exn -> M A) : M A :=
  fun w =>
    match c w with
    | (Raise e, w') => handler e w'
    | r => r
    end.

(** [self.config.use_simulator = u; self.config.simulator_type = t] *)
Definition set_config (u t : pyval) (s : DWaveServer) : DWaveServer :=
  {| config := {| use_simulator := u; simulator_type := t |};
     problems := problems s; results := results s |}.

(** [self.problems[problem_id] = problem] *)
Definition store_problem (id : string) (p : Problem) (s : DWaveServer)
  : DWaveServer :=
  {| config := config s; problems := <[id := p]> (problems s);
     results := results s |}.

(** [self.results[result_id] = result] *)
Definition store_result (id : string) (r : Result) (s : DWaveServer)
  : DWaveServer :=
  {| config := config s; problems := problems s;
     results := <[id := r]> (results s) |}.

(** [ServerConfig(use_simulator)] *)
Definition ServerConfig_init (use_simulator : pyval) : ServerConfig :=
  {| use_simulator := use_simulator; simulator_type := PStr "dwave" |}.

(** [DWaveServer(config)]: a missing config is [ServerConfig(True)], both
    maps start empty. *)
Definition DWaveServer_init (config : option ServerConfig) : DWaveServer :=
  {| config := default (ServerConfig_init (PBool true)) config;
     problems := ∅; results := ∅ |}.

(** ** The registry methods (class [DWaveServer]) *)

Section Server.

(** The n-th identifier the process's generator hands out, as text
    ([str(uuid.uuid4())]). *)
Variable uuid4 : nat -> string.

(** [float(s)] of a string: the parsed number, or [None] for the
    [ValueError]. *)
Variable float_of_str : string -> option Q.

(** [str(uuid.uuid4())]: the next identifier; the generator moves on. *)
Definition fresh_uuid : M string :=
  fun w => (Return (uuid4 (drawn w)),
            {| server := server w; drawn := S (drawn w) |}).

(** [float(v)] *)
Definition py_float (v : pyval) : outcome Q :=
  match v with
  | PBool b => Return (inject_Z (if b then 1 else 0))
  | PInt z =>
      if int_overflows z then Raise (FloatOverflow v)
      else Return (inject_Z z)
  | PFloat q => Return q
  | PStr s =>
      match float_of_str s with
      | Some q => Return q
      | None => Raise (NotAFloat v)
      end
  | _ => Raise (NotAFloat v)
  end.

(** [d[k] = v] with the hashing it starts with. *)
Definition py_setitem {V} (k : pyval) (v : V) (d : pydict V)
  : outcome (pydict V) :=
  _ ← py_hash_check k; Return (dict_setitem k v d).

(** server.py:41 *)
Definition get_simulator_status : M SimulatorStatus :=
  s ← self;
  mret {| status_use_simulator := use_simulator (config s);
          status_simulator_type := simulator_type (config s);
          using_simulator := use_simulator (config s);
          quantum_hardware_available := false |}.

(** The dict returned at server.py:58, read back from the configuration. *)
Definition config_update (c : ServerConfig) : ConfigUpdate :=
  {| new_use_simulator := use_simulator c;
     new_simulator_type := simulator_type c;
     updated := true |}.

(** server.py:50 *)
Definition set_simulator_config (use_simulator simulator_type : pyval)
  : M ConfigUpdate :=
  if negb (existsb (py_eqb simulator_type) [PStr "dwave"; PStr "neal"])
  then raise (InvalidSimulatorType simulator_type)
  else
    update (set_config use_simulator simulator_type);;
    s ← self;
    mret (config_update (config s)).

(** The key of one entry of [Q] or [J] (server.py:71-77, 105-111): text
    with a comma is stripped of parentheses, split and read as two
    integers; any other key stays as it is. *)
Definition format_key (k : pyval) : outcome pyval :=
  match k with
  | PStr s =>
      if contains "," s then
        let stripped := strip is_paren s in
        '(i, j) ← unpack_ints (split "," stripped);
        Return (PTuple [PInt i; PInt j])
      else Return k
  | _ => Return k
  end.

(** The loop [for k, v in Q.items()] (server.py:70, 104), from the dict
    built so far. *)
Fixpoint format_pairs (items : list (pyval * pyval)) (formatted : pydict Q)
  : outcome (pydict Q) :=
  match items with
  | [] => Return formatted
  | (k, v) :: rest =>
      k' ← format_key k;
      x ← py_float v;
      formatted' ← py_setitem k' x formatted;
      format_pairs rest formatted'
  end.

(** [len(set([i for i, j in keys] + [j for i, j in keys]))] (server.py:92) *)
Definition count_variables (formatted_Q : pydict Q) : outcome Z :=
  firsts ← mapM (fun k => '(i, _) ← unpack2 k; Return i)
                (dict_keys formatted_Q);
  seconds ← mapM (fun k => '(_, j) ← unpack2 k; Return j)
                 (dict_keys formatted_Q);
  Return (len (py_set (firsts ++ seconds))).

(** server.py:64 *)
Definition create_qubo (Q description : pyval) : M ProblemSummary :=
  problem_id ← fresh_uuid;
  formatted_Q ← lift (items ← py_items Q; format_pairs items []);
  update (store_problem problem_id
            (QuboProblem problem_id formatted_Q description));;
  n ← lift (count_variables formatted_Q);
  mret {| created_problem_id := problem_id; type := "qubo";
          description := description; num_variables := n |}.

(** The dict comprehension of server.py:100: the key is converted first,
    then the value. *)
Fixpoint format_h (items : list (pyval * pyval)) (formatted : pydict Q)
  : outcome (pydict Q) :=
  match items with
  | [] => Return formatted
  | (i, v) :: rest =>
      k ← match i with
          | PStr s => z ← py_int s; Return (PInt z)
          | _ => Return i
          end;
      x ← py_float v;
      formatted' ← py_setitem k x formatted;
      format_h rest formatted'
  end.

(** server.py:95 *)
Definition create_ising (h J description : pyval) : M ProblemSummary :=
  problem_id ← fresh_uuid;
  formatted_h ← lift (items ← py_items h; format_h items []);
  formatted_J ← lift (items ← py_items J; format_pairs items []);
  update (store_problem problem_id
            (IsingProblem problem_id formatted_h formatted_J description));;
  mret {| created_problem_id := problem_id; type := "ising";
          description := description; num_variables := len formatted_h |}.

(** [problem_id in self.problems], and the problem when it is there. The
    keys of the map are texts; any other value is hashed and found absent. *)
Definition find_problem (problem_id : pyval) (s : DWaveServer)
  : outcome (option Problem) :=
  match problem_id with
  | PStr id => Return (problems s !! id)
  | _ => _ ← py_hash_check problem_id; Return None
  end.

(** [{str(var): fill for var in range(5)}] *)
Definition mock_solution (fill : Z) : pydict Z :=
  fold_left (fun d var => dict_setitem (PStr (str_of_int var)) fill d)
            [0; 1; 2; 3; 4] [].

(** [x / 1000.0]: an integer is converted as [float()] converts it. *)
Definition div_1000 (x : pyval) : outcome Q :=
  match x with
  | PInt z =>
      if int_overflows z then Raise (FloatOverflow x)
      else Return (inject_Z z / 1000)%Q
  | _ =>
      match py_num x with
      | Some q => Return (q / 1000)%Q
      | None => Raise (BadOperand x)
      end
  end.

(** server.py:130. [keywords] are the keyword arguments of the call: those
    named [num_reads] and [annealing_time] are bound to the parameters of
    these names (100 and 20 when absent), the others make up [kwargs].
    The total annealing time is computed in exact arithmetic; the code's
    product is rounded ([0.05 * (100 / 1000.0)] is 0.005000000000000001),
    so the properties compare this field between calls and none states
    its value. *)
Definition solve_problem (problem_id : pyval) (keywords : gmap string pyval)
  : M Result :=
  let num_reads := default (PInt 100) (keywords !! "num_reads") in
  let annealing_time := default (PInt 20) (keywords !! "annealing_time") in
  let kwargs := delete "num_reads" (delete "annealing_time" keywords) in
  s ← self;
  found ← lift (find_problem problem_id s);
  match found with
  | None => raise (ProblemNotFound problem_id)
  | Some problem =>
      result_id ← fresh_uuid;
      let solution :=
        if String.eqb (problem_type problem) "qubo" then
          dict_setitem (PStr "2") 1
            (dict_setitem (PStr "0") 1 (mock_solution 0))
        else
          dict_setitem (PStr "3") 1
            (dict_setitem (PStr "0") 1 (mock_solution (-1))) in
      reads ← lift (div_1000 (default (PInt 100) (kwargs !! "num_reads")));
      let result :=
        {| result_id := result_id;
           result_problem_id := problem_id;
           energy := (-1.5)%Q;
           solution := solution;
           qpu_access_time := 0.05%Q;
           execution_time := 0.05%Q;
           total_annealing_time := (0.05 * reads)%Q;
           status := "COMPLETED" |} in
      update (store_result result_id result);;
      mret result
  end.

(** server.py:165 *)
Definition get_annealing_time_status : M AnnealingTimeStatus :=
  let mock_total_annealing_time_s := 0.0%Q in
  let mock_time_limit_s := 0.1%Q in
  let mock_remaining_time_s :=
    (mock_time_limit_s - mock_total_annealing_time_s)%Q in
  mret {| min_annealing_time_ns := 200;
          max_annealing_time_ns := 2000;
          current_annealing_time_ns := 500;
          total_annealing_time_ns := 500;
          time_limit := mock_time_limit_s;
          total_annealing_time_s := mock_total_annealing_time_s;
          remaining_time := mock_remaining_time_s |}.

(** ** The tool dispatcher *)

(** [arguments.get(key, fallback)] *)
Definition get_arg (key : string) (fallback : pyval)
  (arguments : gmap string pyval) : pyval :=
  default fallback (arguments !! key).

(** [key not in arguments] *)
Definition missing (key : string) (arguments : gmap string pyval) : bool :=
  bool_decide (arguments !! key = None).

(** server.py:288. [raise McpError(text)] raises the [AttributeError] of
    [text.message] in place of an [McpError]. Inside the [try] it is caught
    with everything else a registry method raises; the [except] clause then
    tries to build an [McpError] from a text in its turn, and what leaves
    the dispatcher on every failing path is the [AttributeError] of that
    attempt, with the exception caught as its context. *)
Definition call_tool (name : string) (arguments : gmap string pyval)
  : M (list TextContent) :=
  try_except
    (result ←
       (if String.eqb name "get_simulator_status" then
          OfStatus <$> get_simulator_status
        else if String.eqb name "set_simulator_config" then
          let use_simulator := get_arg "use_simulator" (PBool true) arguments in
          let simulator_type :=
            get_arg "simulator_type" (PStr "dwave") arguments in
          OfConfig <$> set_simulator_config use_simulator simulator_type
        else if String.eqb name "create_qubo" then
          if missing "Q" arguments
          then raise (NoMessage "Missing required parameter: Q")
          else
            let Q := get_arg "Q" (PDict []) arguments in
            let description := get_arg "description" (PStr "") arguments in
            OfCreate <$> create_qubo Q description
        else if String.eqb name "create_ising" then
          if missing "h" arguments || missing "J" arguments
          then raise (NoMessage "Missing required parameters: h and J")
          else
            let h := get_arg "h" (PDict []) arguments in
            let J := get_arg "J" (PDict []) arguments in
            let description := get_arg "description" (PStr "") arguments in
            OfCreate <$> create_ising h J description
        else if String.eqb name "solve_problem" then
          if missing "problem_id" arguments
          then raise (NoMessage "Missing required parameter: problem_id")
          else
            let problem_id := get_arg "problem_id" PNone arguments in
            OfSolve <$> solve_problem problem_id ∅
        else if String.eqb name "get_annealing_time_status" then
          OfAnnealing <$> get_annealing_time_status
        else raise (NoMessage ("Unknown tool: " +:+ name)));
     mret [ {| content_type := "text"; text := result |} ])
    (fun e => raise (NoMessageWhile e)).

(** The arguments each tool's input schema lists as required
    (server.py:193, the [required] entries of [list_tools]). *)
Definition required_arguments (name : string) : list string :=
  if String.eqb name "create_qubo" then ["Q"]
  else if String.eqb name "create_ising" then ["h"; "J"]
  else if String.eqb name "solve_problem" then ["problem_id"]
  else [].

(** ** Sequences of calls *)

(** One call of one of the six methods, with its arguments. *)
Inductive operation : Type :=
| GetSimulatorStatus
| SetSimulatorConfig (use_simulator simulator_type : pyval)
| CreateQubo (Q description : pyval)
| CreateIsing (h J description : pyval)
| SolveProblem (problem_id : pyval) (keywords : gmap string pyval)
| GetAnnealingTimeStatus.

Definition perform (op : operation) : M ToolResult :=
  match op with
  | GetSimulatorStatus => OfStatus <$> get_simulator_status
  | SetSimulatorConfig u t => OfConfig <$> set_simulator_config u t
  | CreateQubo Q d => OfCreate <$> create_qubo Q d
  | CreateIsing h J d => OfCreate <$> create_ising h J d
  | SolveProblem id kw => OfSolve <$> solve_problem id kw
  | GetAnnealingTimeStatus => OfAnnealing <$> get_annealing_time_status
  end.

(** The state after a run of calls, whether they return or raise. *)
Definition exec (ops : list operation) (w : Process) : Process :=
  fold_left (fun w op => snd (perform op w)) ops w.

(** The states a server can be in: freshly built, in a process whose
    generator may already have been used, then any calls. *)
Inductive reachable : Process -> Prop :=
| reachable_init config n :
    reachable {| server := DWaveServer_init config; drawn := n |}
| reachable_step op w :
    reachable w -> reachable (snd (perform op w)).

(** What one call can do to the state: nothing but perhaps use up
    identifiers, replace the configuration, store a problem under the
    identifier just drawn, or store under it a result that names a stored
    problem. *)
Inductive step_effect (w : Process) : Process -> Prop :=
| effect_none n :
    (drawn w <= n)%nat ->
    step_effect w {| server := server w; drawn := n |}
| effect_config u t :
    step_effect w {| server := set_config u t (server w); drawn := drawn w |}
| effect_problem p :
    step_effect w
      {| server := store_problem (uuid4 (drawn w)) p (server w);
         drawn := S (drawn w) |}
| effect_result r id :
    result_problem_id r = PStr id ->
    is_Some (problems (server w) !! id) ->
    step_effect w
      {| server := store_result (uuid4 (drawn w)) r (server w);
         drawn := S (drawn w) |}.

End Server.

(** Every stored result names a stored problem. *)
Definition results_reference_problems (s : DWaveServer) : Prop :=
  forall id r, results s !! id = Some r ->
    exists problem_id,
      result_problem_id r = PStr problem_id /\
      is_Some (problems s !! problem_id).

(** ** Notions the properties are stated with *)

(** The result fabricated for a stored problem: only the stored type and
    the identifier drawn enter it. *)
Definition mock_result (result_id : string) (problem_id : pyval)
  (p : Problem) : Result :=
  {| result_id := result_id;
     result_problem_id := problem_id;
     energy := (-1.5)%Q;
     solution :=
       if String.eqb (problem_type p) "qubo"
       then dict_setitem (PStr "2") 1
              (dict_setitem (PStr "0") 1 (mock_solution 0))
       else dict_setitem (PStr "3") 1
              (dict_setitem (PStr "0") 1 (mock_solution (-1)));
     qpu_access_time := 0.05%Q;
     execution_time := 0.05%Q;
     total_annealing_time := (0.05 * (inject_Z 100 / 1000))%Q;
     status := "COMPLETED" |}.

(** Every character of [s] satisfies [p]. *)
Fixpoint all_chars (p : ascii -> bool) (s : string) : bool :=
  match s with
  | String a r => p a && all_chars p r
  | EmptyString => true
  end.

(** The characters [str] of an integer is made of. *)
Definition is_decimal_char (a : ascii) : bool :=
  is_digit a || Ascii.eqb a "-".

(** The key ["i,j"]. *)
Definition text_key (i j : Z) : string :=
  str_of_int i +:+ "," +:+ str_of_int j.

(** The key ["(i,j)"]. *)
Definition paren_key (i j : Z) : string :=
  "(" +:+ text_key i j +:+ ")".

(** The native key [(i, j)]. *)
Definition native_key (ij : Z * Z) : pyval :=
  PTuple [PInt (fst ij); PInt (snd ij)].

(** [k] is one of the three forms of the pair [(i, j)]. *)
Inductive pair_key : pyval -> Z * Z -> Prop :=
| pair_key_native i j : pair_key (PTuple [PInt i; PInt j]) (i, j)
| pair_key_text i j : pair_key (PStr (text_key i j)) (i, j)
| pair_key_paren i j : pair_key (PStr (paren_key i j)) (i, j).

(** [k] is an integer [z], natively or as text [int()] reads as [z]. *)
Inductive int_key : pyval -> Z -> Prop :=
| int_key_native z : int_key (PInt z) z
| int_key_text s z : int_of_str s = Some z -> int_key (PStr s) z.

(** [isinstance(k, str) and "," in k] *)
Definition comma_text (k : pyval) : bool :=
  match k with
  | PStr s => contains "," s
  | _ => false
  end.

(** [i, j = k] goes through. *)
Definition unpackable (k : pyval) : bool :=
  match unpack2 k with
  | Return _ => true
  | Raise _ => false
  end.

(** An entry of a valid coefficient map, with the pair it stands for: a
    key in one of the three forms, a value [float()] accepts. *)
Definition valid_entry (float_of_str : string -> option Q)
  (kv : pyval * pyval) (ij : Z * Z) : Prop :=
  pair_key kv.1 ij /\ exists x, py_float float_of_str kv.2 = Return x.

(** An entry of a valid [h], with the integer its key stands for. *)
Definition valid_bias (float_of_str : string -> option Q)
  (kv : pyval * pyval) (z : Z) : Prop :=
  int_key kv.1 z /\ exists x, py_float float_of_str kv.2 = Return x.

(** An entry the loop of [create_qubo] gets past: a hashable key that
    [format_key] accepts and a value [float()] accepts. *)
Definition entry_normalizes (float_of_str : string -> option Q)
  (kv : pyval * pyval) : Prop :=
  hashable kv.1 = true /\
  (exists k', format_key kv.1 = Return k') /\
  (exists x, py_float float_of_str kv.2 = Return x).

(** ** A concrete generator and parser, to run the model *)

(** Identifiers that differ from draw to draw. *)
Definition sample_uuid4 (n : nat) : string := "uuid-" +:+ pretty n.

(** A literal parser that knows the integer literals. *)
Definition sample_float_of_str (s : string) : option Q :=
  inject_Z <$> int_of_str s.

(** A freshly started process. *)
Definition start (config : option ServerConfig) : Process :=
  {| server := DWaveServer_init config; drawn := 0 |}.

(** The QUBO of the specification: [{"0,0": -1, "1,1": -1, "0,1": 2}]. *)
Definition sample_Q : pyval :=
  PDict [(PStr "0,0", PInt (-1)); (PStr "1,1", PInt (-1));
         (PStr "0,1", PInt 2)].

(** The Ising model of the specification: [h = {"0": 1.0, "1": -1.0}],
    [J = {"(0,1)": -1.0}]. *)
Definition sample_h : pyval :=
  PDict [(PStr "0", PFloat 1); (PStr "1", PFloat (-1))].

Definition sample_J : pyval :=
  PDict [(PStr "(0,1)", PFloat (-1))].

(** A process that has created [sample_Q]. *)
Definition after_create : Process :=
  snd (create_qubo sample_uuid4 sample_float_of_str sample_Q (PStr "")
         (start None)).

(** ** The rest of the server module and the HTTP adapter *)

(** The tool names (server.py:18, [DWaveTools]). *)
Inductive DWaveTools : Type :=
| GET_SIMULATOR_STATUS
| SET_SIMULATOR_CONFIG
| CREATE_QUBO
| CREATE_ISING
| SOLVE_PROBLEM
| GET_ANNEALING_TIME_STATUS.

(** [tool.value] *)
Definition value (tool : DWaveTools) : string :=
  match tool with
  | GET_SIMULATOR_STATUS => "get_simulator_status"
  | SET_SIMULATOR_CONFIG => "set_simulator_config"
  | CREATE_QUBO => "create_qubo"
  | CREATE_ISING => "create_ising"
  | SOLVE_PROBLEM => "solve_problem"
  | GET_ANNEALING_TIME_STATUS => "get_annealing_time_status"
  end.

(** server.py:184, [main(config)]: a new server. *)
Definition main (config : option ServerConfig) : DWaveServer :=
  DWaveServer_init config.

Section Adapter.

Variable uuid4 : nat -> string.
Variable float_of_str : string -> option Q.

(** Two tools of api_server.py. Each goes through
    [_call_dwave_method], which looks the method up by its name and, the
    method being no coroutine, calls it with the keyword arguments it was
    given; nothing is caught on the way. *)

(** api_server.py:47. The tool's own default for [description] is
    ["QUBO problem"]. *)
Definition api_create_qubo (Q : pyval) (description : option pyval)
  : M ProblemSummary :=
  create_qubo uuid4 float_of_str Q
    (default (PStr "QUBO problem") description).

(** api_server.py:52. [num_reads] and [annealing_time] default to 100 and
    20 and are passed on by keyword. *)
Definition api_solve_problem (problem_id : pyval)
  (num_reads annealing_time : option pyval) : M Result :=
  solve_problem uuid4 problem_id
    (<["num_reads" := default (PInt 100) num_reads]>
       (<["annealing_time" := default (PInt 20) annealing_time]> ∅)).

End Adapter.

(** Every key of the two maps is an identifier the generator has handed
    out. *)
Definition ids_drawn (uuid4 : nat -> string) (w : Process) : Prop :=
  forall id,
    is_Some (problems (server w) !! id) \/ is_Some (results (server w) !! id) ->
    exists n, (n < drawn w)%nat /\ id = uuid4 n.

(** The simulator type is one of the two the server knows. *)
Definition recognized (c : ServerConfig) : Prop :=
  simulator_type c = PStr "dwave" \/ simulator_type c = PStr "neal".

(** The result a tool returns is of the tool's own kind. *)
Definition result_of (name : string) (result : ToolResult) : Prop :=
  match result with
  | OfStatus _ => name = "get_simulator_status"
  | OfConfig c => name = "set_simulator_config" /\ updated c = true
  | OfCreate r =>
      (name = "create_qubo" /\ type r = "qubo") \/
      (name = "create_ising" /\ type r = "ising")
  | OfSolve r => name = "solve_problem" /\ status r = "COMPLETED"
  | OfAnnealing _ => name = "get_annealing_time_status"
  end.

(** The errors of the interpreter that reading a coefficient map can end
    in. *)
Definition conversion_error (e : exn) : bool :=
  match e with
  | NoItems _ | InvalidIntLiteral _ | NotAFloat _ | FloatOverflow _
  | CannotUnpack _ | TooManyValues | Unhashable _ => true
  | _ => false
  end.

(** The solution fabricated for a QUBO, and for an Ising model. *)
Definition qubo_pattern : pydict Z :=
  [(PStr "0", 1); (PStr "1", 0); (PStr "2", 1); (PStr "3", 0); (PStr "4", 0)].

Definition ising_pattern : pydict Z :=
  [(PStr "0", 1); (PStr "1", -1); (PStr "2", -1); (PStr "3", 1);
   (PStr "4", -1)].

(** * Properties *)

(** Unfolds the plumbing of [M] so that a method reads as a function of the
    state. *)
Ltac run_M :=
  unfold mbind, M_bind, mret, M_ret, fmap, M_fmap, self, lift, raise, update,
    fresh_uuid, try_except; simpl.

(** Splits on the outcome of the first pure computation the goal waits
    for. *)
Ltac case_outcome :=
  match goal with
  | |- context [outcome_bind ?A ?B ?f ?c] =>
      destruct (outcome_bind A B f c); simpl
  end.

(** ** Text: stripping, splitting, integer literals *)

Lemma all_chars_app p s t :
  all_chars p (s +:+ t) = all_chars p s && all_chars p t.
Proof. induction s as [|a s IH]; simpl; [done|]. by rewrite IH, andb_assoc. Qed.

Lemma all_chars_impl (p q : ascii -> bool) s :
  (forall a, p a = true -> q a = true) ->
  all_chars p s = true -> all_chars q s = true.
Proof.
  intros Hpq. induction s as [|a s IH]; simpl; [done|].
  rewrite !andb_true_iff. intros [Ha Hs]. auto.
Qed.

Lemma lstrip_none p s :
  all_chars (fun a => negb (p a)) s = true -> lstrip p s = s.
Proof. destruct s as [|a s]; simpl; [done|]. by destruct (p a). Qed.

Lemma rstrip_none p s :
  all_chars (fun a => negb (p a)) s = true -> rstrip p s = s.
Proof.
  induction s as [|a s IH]; simpl; [done|].
  rewrite andb_true_iff. intros [Ha Hs]. rewrite (IH Hs).
  destruct (p a); [done|]. by destruct s.
Qed.

Lemma strip_none p s :
  all_chars (fun a => negb (p a)) s = true -> strip p s = s.
Proof. intros H. unfold strip. by rewrite lstrip_none, rstrip_none. Qed.

Lemma rstrip_last p s c :
  all_chars (fun a => negb (p a)) s = true -> p c = true ->
  rstrip p (s +:+ String c EmptyString) = s.
Proof.
  intros Hs Hc. induction s as [|a s IH]; simpl in *.
  - by rewrite Hc.
  - apply andb_true_iff in Hs as [Ha Hs]. rewrite (IH Hs).
    destruct (p a); [done|]. by destruct s.
Qed.

Lemma strip_wrapped p s c1 c2 :
  all_chars (fun a => negb (p a)) s = true -> p c1 = true -> p c2 = true ->
  strip p (String c1 (s +:+ String c2 EmptyString)) = s.
Proof.
  intros Hs H1 H2. unfold strip. simpl. rewrite H1.
  destruct s as [|a s].
  - simpl. by rewrite H2.
  - simpl in Hs. apply andb_true_iff in Hs as [Ha Hs]. simpl.
    destruct (p a) eqn:E; [done|].
    change (String a (s +:+ String c2 "")) with (String a s +:+ String c2 "").
    apply rstrip_last; [|done]. simpl. by rewrite E, Hs.
Qed.

Lemma contains_app c s t :
  contains c (s +:+ t) = contains c s || contains c t.
Proof. induction s as [|a s IH]; simpl; [done|]. by rewrite IH, orb_assoc. Qed.

Lemma contains_app_sep c s t : contains c (s +:+ String c t) = true.
Proof.
  induction s as [|a s IH]; simpl.
  - by rewrite Ascii.eqb_refl.
  - by rewrite IH, orb_true_r.
Qed.

Lemma split_none c s :
  all_chars (fun a => negb (Ascii.eqb a c)) s = true -> split c s = [s].
Proof.
  induction s as [|a s IH]; simpl; [done|].
  rewrite andb_true_iff. intros [Ha Hs]. rewrite (IH Hs).
  by destruct (Ascii.eqb a c).
Qed.

Lemma split_app_sep c s t :
  all_chars (fun a => negb (Ascii.eqb a c)) s = true ->
  split c (s +:+ String c t) = s :: split c t.
Proof.
  induction s as [|a s IH]; simpl.
  - by rewrite Ascii.eqb_refl.
  - rewrite andb_true_iff. intros [Ha Hs]. rewrite (IH Hs).
    by destruct (Ascii.eqb a c).
Qed.

Lemma string_of_uint_digits d :
  all_chars is_digit (NilEmpty.string_of_uint d) = true.
Proof. induction d; simpl; auto. Qed.

Lemma digits_ok_digits prev s :
  all_chars is_digit s = true ->
  digits_ok prev s = match s with EmptyString => prev | _ => true end.
Proof.
  revert prev. induction s as [|a s IH]; intros prev; simpl; [done|].
  rewrite andb_true_iff. intros [Ha Hs]. rewrite Ha, (IH _ Hs). by destruct s.
Qed.

Lemma is_digit_not_underscore a : is_digit a = true -> Ascii.eqb a "_" = false.
Proof.
  destruct (Ascii.eqb a "_") eqn:E; [|done].
  apply Ascii.eqb_eq in E as ->. discriminate.
Qed.

Lemma drop_underscores_digits s :
  all_chars is_digit s = true -> drop_underscores s = s.
Proof.
  induction s as [|a s IH]; simpl; [done|].
  rewrite andb_true_iff. intros [Ha Hs].
  by rewrite (is_digit_not_underscore _ Ha), (IH Hs).
Qed.

Lemma is_digit_not_space a : is_digit a = true -> is_space a = false.
Proof.
  unfold is_digit, is_space. intros H.
  apply andb_true_iff in H as [H1 H2].
  apply N.leb_le in H1, H2.
  repeat (apply orb_false_iff; split).
  - apply andb_false_iff. right. apply N.leb_gt. lia.
  - apply N.eqb_neq. lia.
  - apply N.eqb_neq. lia.
  - apply N.eqb_neq. lia.
Qed.

Lemma pos_to_uint_nonnil p : Pos.to_uint p <> Nil.
Proof.
  intros H. pose proof (Unsigned.of_to p) as Hp. rewrite H in Hp. discriminate.
Qed.

Lemma int_of_str_uint d :
  d <> Nil ->
  int_of_str (NilEmpty.string_of_uint d) = Some (Z.of_uint d) /\
  int_of_str (String "-" (NilEmpty.string_of_uint d)) = Some (- Z.of_uint d).
Proof.
  intros Hd.
  pose proof (string_of_uint_digits d) as Hdig.
  pose proof (NilEmpty.usu d) as Husu.
  assert (Hne : NilEmpty.string_of_uint d <> "") by (by destruct d).
  assert (Hblank : all_chars (fun a => negb (is_space a))
                     (NilEmpty.string_of_uint d) = true).
  { eapply all_chars_impl; [|exact Hdig].
    intros a Ha. by rewrite (is_digit_not_space _ Ha). }
  assert (Hok : digits_ok false (NilEmpty.string_of_uint d) = true).
  { rewrite digits_ok_digits by done.
    by destruct (NilEmpty.string_of_uint d). }
  split.
  - unfold int_of_str. rewrite (strip_none _ _ Hblank).
    assert (Hhead :
              match NilEmpty.string_of_uint d with
              | String "-" r => (true, r)
              | String "+" r => (false, r)
              | _ => (false, NilEmpty.string_of_uint d)
              end = (false, NilEmpty.string_of_uint d)).
    { destruct d; simpl; done. }
    rewrite Hhead, Hok, drop_underscores_digits, Husu by done. done.
  - unfold int_of_str. rewrite strip_none by (simpl; exact Hblank).
    rewrite Hok, drop_underscores_digits, Husu by done. done.
Qed.

Lemma int_of_str_of_int z : int_of_str (str_of_int z) = Some z.
Proof.
  unfold str_of_int. destruct z as [|p|p]; simpl.
  - reflexivity.
  - pose proof (pos_to_uint_nonnil p) as Hp.
    destruct (int_of_str_uint _ Hp) as [H _].
    unfold NilZero.string_of_uint.
    destruct (Pos.to_uint p) eqn:E; try done; rewrite H;
      f_equal; rewrite <- E; apply (DecimalZ.of_to (Z.pos p)).
  - pose proof (pos_to_uint_nonnil p) as Hp.
    destruct (int_of_str_uint _ Hp) as [_ H].
    unfold NilZero.string_of_uint.
    destruct (Pos.to_uint p) eqn:E; try done; rewrite H;
      f_equal; rewrite <- E; apply (DecimalZ.of_to (Z.neg p)).
Qed.

Lemma str_of_int_chars z : all_chars is_decimal_char (str_of_int z) = true.
Proof.
  assert (H : forall d,
             all_chars is_decimal_char (NilZero.string_of_uint d) = true).
  { intros d. apply (all_chars_impl is_digit).
    - intros a Ha. unfold is_decimal_char. by rewrite Ha.
    - unfold NilZero.string_of_uint.
      destruct d; try apply string_of_uint_digits. done. }
  unfold str_of_int. destruct (Z.to_int z); simpl; auto.
Qed.

Lemma decimal_char_not_paren a :
  is_decimal_char a = true -> negb (is_paren a) = true.
Proof.
  unfold is_paren.
  destruct (Ascii.eqb a "(") eqn:E1; [by apply Ascii.eqb_eq in E1 as ->|].
  destruct (Ascii.eqb a ")") eqn:E2; [by apply Ascii.eqb_eq in E2 as ->|].
  done.
Qed.

Lemma decimal_char_not_comma a :
  is_decimal_char a = true -> negb (Ascii.eqb a ",") = true.
Proof.
  destruct (Ascii.eqb a ",") eqn:E; [by apply Ascii.eqb_eq in E as ->|].
  done.
Qed.

Lemma text_key_no_paren i j :
  all_chars (fun a => negb (is_paren a)) (text_key i j) = true.
Proof.
  unfold text_key. rewrite !all_chars_app. simpl.
  rewrite !(all_chars_impl _ _ _ decimal_char_not_paren (str_of_int_chars _)).
  done.
Qed.

Lemma unpack_ints_text_key i j :
  unpack_ints (split "," (text_key i j)) = Return (i, j).
Proof.
  change (text_key i j) with (str_of_int i +:+ String "," (str_of_int j)).
  rewrite split_app_sep
    by apply (all_chars_impl _ _ _ decimal_char_not_comma (str_of_int_chars _)).
  rewrite split_none
    by apply (all_chars_impl _ _ _ decimal_char_not_comma (str_of_int_chars _)).
  unfold unpack_ints, py_int. by rewrite !int_of_str_of_int.
Qed.

Lemma format_key_text i j :
  format_key (PStr (text_key i j)) = Return (PTuple [PInt i; PInt j]).
Proof.
  unfold format_key.
  assert (Hc : contains "," (text_key i j) = true) by apply contains_app_sep.
  rewrite Hc, (strip_none _ _ (text_key_no_paren i j)), unpack_ints_text_key.
  reflexivity.
Qed.

Lemma contains_text_key i j : contains "," (text_key i j) = true.
Proof. apply contains_app_sep. Qed.

Lemma format_key_paren i j :
  format_key (PStr (paren_key i j)) = Return (PTuple [PInt i; PInt j]).
Proof.
  unfold format_key.
  change (paren_key i j)
    with (String "(" (text_key i j +:+ String ")" EmptyString)).
  assert (Hc : contains ","
                 (String "(" (text_key i j +:+ String ")" EmptyString)) = true).
  { change (contains "," (String "(" ?s)) with (contains "," s).
    by rewrite contains_app, contains_text_key. }
  rewrite Hc.
  rewrite (strip_wrapped _ _ _ _ (text_key_no_paren i j)) by done.
  rewrite unpack_ints_text_key. reflexivity.
Qed.

Lemma format_key_pair k ij :
  pair_key k ij -> format_key k = Return (native_key ij).
Proof.
  destruct 1; [reflexivity | apply format_key_text | apply format_key_paren].
Qed.

(** ** Dicts and sets over embedded keys *)

Lemma dict_keys_setitem {V} k (v : V) d :
  dict_keys (dict_setitem k v d) = set_add k (dict_keys d).
Proof.
  induction d as [|[k' v'] d IH]; simpl; [done|].
  destruct (py_eqb k' k); simpl; [done|]. by rewrite IH.
Qed.

Lemma py_eqb_int a b : py_eqb (PInt a) (PInt b) = true <-> a = b.
Proof.
  simpl. rewrite Qeq_bool_iff. apply inject_Z_injective.
Qed.

Lemma py_eqb_native a b : py_eqb (native_key a) (native_key b) = true <-> a = b.
Proof.
  destruct a as [a1 a2], b as [b1 b2]. unfold native_key. cbn [fst snd].
  change (py_eqb (PTuple [PInt a1; PInt a2]) (PTuple [PInt b1; PInt b2]))
    with (py_eqb (PInt a1) (PInt b1) && (py_eqb (PInt a2) (PInt b2) && true)).
  rewrite andb_true_r, andb_true_iff, !py_eqb_int. simpl.
  split; [intros [-> ->]; done | intros [= -> ->]; done].
Qed.

Section Embedded.
Context {T : Type} `{EqDecision T} (embed : T -> pyval).
Hypothesis embed_eqb : forall a b, py_eqb (embed a) (embed b) = true <-> a = b.

Lemma set_add_embed (a : T) (l : list T) :
  set_add (embed a) (embed <$> l)
  = embed <$> (if decide (a ∈ l) then l else (l ++ [a])%list).
Proof.
  induction l as [|b l IH].
  - destruct (decide (a ∈ [])) as [Hin|_]; [|done].
    by apply elem_of_nil in Hin.
  - destruct (decide (a ∈ b :: l)) as [Hin|Hnin];
      rewrite ?fmap_cons; cbn [set_add].
    + destruct (py_eqb (embed b) (embed a)) eqn:E; [done|].
      rewrite IH. apply elem_of_cons in Hin as [->|Hin].
      * rewrite (proj2 (embed_eqb b b) eq_refl) in E. done.
      * by rewrite decide_True.
    + destruct (py_eqb (embed b) (embed a)) eqn:E.
      * apply embed_eqb in E as ->. destruct Hnin. apply list_elem_of_here.
      * rewrite IH. rewrite decide_False; [done|].
        intros Hin. apply Hnin. by apply list_elem_of_further.
Qed.

Lemma add_new_spec (a : T) (l : list T) :
  NoDup l ->
  NoDup (if decide (a ∈ l) then l else (l ++ [a])%list) /\
  forall x,
    x ∈ (if decide (a ∈ l) then l else (l ++ [a])%list) <-> x ∈ l \/ x = a.
Proof.
  intros Hnd. destruct (decide (a ∈ l)) as [Hin|Hnin].
  - split; [done|]. intros x. split; [tauto | intros [?| ->]; done].
  - split.
    + apply NoDup_app. split; [done|]. split; [|apply NoDup_singleton].
      intros x Hx Hxa. apply list_elem_of_singleton in Hxa as ->. done.
    + intros x. rewrite elem_of_app, list_elem_of_singleton. done.
Qed.

Lemma py_set_embed_from (l acc : list T) :
  NoDup acc ->
  exists l',
    fold_left (fun s x => set_add x s) (embed <$> l) (embed <$> acc)
    = embed <$> l' /\
    NoDup l' /\ forall x, x ∈ l' <-> x ∈ acc \/ x ∈ l.
Proof.
  revert acc. induction l as [|a l IH]; intros acc Hnd; simpl.
  - exists acc. split; [done|]. split; [done|].
    intros x. rewrite elem_of_nil. tauto.
  - rewrite set_add_embed.
    destruct (add_new_spec a acc Hnd) as [Hnd' Hel].
    destruct (IH _ Hnd') as (l' & Heq & Hnd'' & Hel').
    exists l'. split; [done|]. split; [done|].
    intros x. rewrite Hel', Hel, elem_of_cons. tauto.
Qed.

Lemma py_set_embed (l : list T) :
  exists l', py_set (embed <$> l) = embed <$> l' /\
    NoDup l' /\ forall x, x ∈ l' <-> x ∈ l.
Proof.
  destruct (py_set_embed_from l [] (NoDup_nil_2)) as (l' & Heq & Hnd & Hel).
  exists l'. split; [exact Heq|]. split; [done|].
  intros x. rewrite Hel, elem_of_nil. tauto.
Qed.

End Embedded.

(** The number of distinct integers, as [len(set(...))] counts them. *)
Lemma len_py_set_int (l : list Z) :
  len (py_set (PInt <$> l)) = Z.of_nat (size (list_to_set l : gset Z)).
Proof.
  destruct (py_set_embed PInt py_eqb_int l) as (l' & -> & Hnd & Hel).
  unfold len. rewrite length_fmap. f_equal.
  rewrite <- (size_list_to_set (C := gset Z) l' Hnd). f_equal.
  apply set_eq. intros x. rewrite !elem_of_list_to_set. apply Hel.
Qed.

(** ** Keys that cannot be unpacked *)

Lemma unpack2_raise k e : unpack2 k = Raise e -> e = CannotUnpack k.
Proof.
  destruct k as [| | | |s|l|l|d]; simpl; try (intros [= <-]; done).
  - destruct s as [|a [|b [|c s]]]; intros [= <-]; done.
  - destruct l as [|a [|b [|c l]]]; intros [= <-]; done.
  - destruct l as [|a [|b [|c l]]]; intros [= <-]; done.
  - destruct d as [|[a ?] [|[b ?] [|c d]]]; intros [= <-]; done.
Qed.

Lemma unpackable_tuple l : unpackable (PTuple l) = Nat.eqb (length l) 2.
Proof. by destruct l as [|a [|b [|c l]]]. Qed.

Lemma unpackable_list l : unpackable (PList l) = Nat.eqb (length l) 2.
Proof. by destruct l as [|a [|b [|c l]]]. Qed.

Lemma unpackable_dict d : unpackable (PDict d) = Nat.eqb (length d) 2.
Proof. by destruct d as [|[a ?] [|[b ?] [|c d]]]. Qed.

Lemma py_eqb_tuple_length l m :
  py_eqb (PTuple l) (PTuple m) = true -> length l = length m.
Proof.
  simpl. revert m. induction l as [|a l IH]; intros [|b m]; try done.
  rewrite andb_true_iff. intros [_ H]. simpl. f_equal. by apply IH.
Qed.

Lemma py_eqb_list_length l m :
  py_eqb (PList l) (PList m) = true -> length l = length m.
Proof.
  simpl. revert m. induction l as [|a l IH]; intros [|b m]; try done.
  rewrite andb_true_iff. intros [_ H]. simpl. f_equal. by apply IH.
Qed.

Lemma py_eqb_dict_length d e :
  py_eqb (PDict d) (PDict e) = true -> length d = length e.
Proof.
  simpl. rewrite andb_true_iff. intros [H _]. by apply Nat.eqb_eq in H.
Qed.

Lemma unpackable_eqb y k : py_eqb y k = true -> unpackable y = unpackable k.
Proof.
  destruct y as [| | | |s|l|l|d], k as [| | | |t|m|m|e];
    try reflexivity; try (simpl; discriminate).
  - simpl. intros H. apply String.eqb_eq in H as ->. done.
  - intros H. rewrite !unpackable_tuple. by rewrite (py_eqb_tuple_length _ _ H).
  - intros H. rewrite !unpackable_list. by rewrite (py_eqb_list_length _ _ H).
  - intros H. rewrite !unpackable_dict. by rewrite (py_eqb_dict_length _ _ H).
Qed.

Lemma set_add_keeps k y l : y ∈ l -> y ∈ set_add k l.
Proof.
  induction l as [|z l IH]; [by intros ?%elem_of_nil|].
  intros Hin. cbn [set_add]. destruct (py_eqb z k); [done|].
  apply elem_of_cons in Hin as [->|Hin].
  - apply list_elem_of_here.
  - apply list_elem_of_further. by apply IH.
Qed.

Lemma set_add_has k l :
  exists y, y ∈ set_add k l /\ (py_eqb y k = true \/ y = k).
Proof.
  induction l as [|z l IH]; cbn [set_add].
  - exists k. split; [apply list_elem_of_here|by right].
  - destruct (py_eqb z k) eqn:E.
    + exists z. split; [apply list_elem_of_here|by left].
    + destruct IH as (y & Hin & Hy). exists y.
      split; [by apply list_elem_of_further|done].
Qed.

Lemma set_add_not_unpackable k l :
  unpackable k = false ->
  Exists (fun y => unpackable y = false) (set_add k l).
Proof.
  intros Hk. apply Exists_exists.
  destruct (set_add_has k l) as (y & Hin & [Hy|Hy]); exists y.
  - split; [done|]. by rewrite (unpackable_eqb _ _ Hy).
  - by subst y.
Qed.

Section Properties.

Variable uuid4 : nat -> string.
Variable float_of_str : string -> option Q.

(** ** solve_problem *)

(** A keyword that names a parameter never reaches [kwargs]. *)
Lemma kwargs_no_num_reads (keywords : gmap string pyval) :
  delete "num_reads" (delete "annealing_time" keywords) !! "num_reads" = None.
Proof. apply lookup_delete_eq. Qed.

Lemma solve_problem_absent (problem_id : string) keywords w :
  problems (server w) !! problem_id = None ->
  solve_problem uuid4 (PStr problem_id) keywords w
  = (Raise (ProblemNotFound (PStr problem_id)), w).
Proof.
  intros Habsent. unfold solve_problem. run_M. by rewrite Habsent.
Qed.

Lemma solve_problem_present (problem_id : string) keywords w p :
  problems (server w) !! problem_id = Some p ->
  let r := mock_result (uuid4 (drawn w)) (PStr problem_id) p in
  solve_problem uuid4 (PStr problem_id) keywords w
  = (Return r,
     {| server := store_result (uuid4 (drawn w)) r (server w);
        drawn := S (drawn w) |}).
Proof.
  intros Hp. unfold solve_problem. run_M.
  rewrite Hp, kwargs_no_num_reads. reflexivity.
Qed.

Lemma classic_text (v : pyval) :
  (exists id, v = PStr id) \/ (forall id, v <> PStr id).
Proof. destruct v; try (by right); left; by eexists. Qed.

(** The membership test on a value that is no text: no key is found, and
    the test itself raises when the value has no hash. *)
Lemma solve_problem_no_text problem_id keywords w :
  (forall id, problem_id <> PStr id) ->
  solve_problem uuid4 problem_id keywords w
  = (Raise (if hashable problem_id then ProblemNotFound problem_id
            else Unhashable problem_id), w).
Proof.
  intros Hno. unfold solve_problem. run_M.
  destruct problem_id; simpl; try done.
  - by destruct (Hno s).
  - unfold py_hash_check. simpl. by destruct (forallb hashable l).
Qed.

(** C4, as the code has it. [problem_id] is any value: the dispatcher hands
    on whatever the arguments hold. It is stored when it is a text that is
    a key of the problem map. When it has a hash, [solve_problem] raises,
    and raises the not-found error, exactly when it is not stored. When it
    has none (a list, a dict, a tuple that holds one) the membership test
    itself raises, a [TypeError]. Either way the whole state is left as it
    was. On a stored identifier the call returns a result that names this
    identifier and whose status is COMPLETED. *)
Theorem solve_problem_found_or_not (problem_id : pyval)
    (keywords : gmap string pyval) (w : Process) :
  let out := solve_problem uuid4 problem_id keywords w in
  let stored :=
    exists id, problem_id = PStr id /\
               is_Some (problems (server w) !! id) in
  (hashable problem_id = true ->
   (fst out = Raise (ProblemNotFound problem_id) <-> ~ stored) /\
   ((exists e, fst out = Raise e) <-> ~ stored)) /\
  (hashable problem_id = false ->
   ~ stored /\
   fst out = Raise (Unhashable problem_id) /\
   class_of (Unhashable problem_id) = TypeError) /\
  (~ stored -> snd out = w) /\
  (stored ->
   exists r, fst out = Return r /\
     result_problem_id r = problem_id /\ status r = "COMPLETED").
Proof.
  intros out stored. subst out.
  destruct (classic_text problem_id) as [[id ->]|Hno].
  - destruct (problems (server w) !! id) as [p|] eqn:E.
    + assert (Hs : stored) by (exists id; split; [done|by eexists]).
      rewrite (solve_problem_present _ keywords _ _ E). simpl.
      repeat split; try done.
      * intros [e He]. discriminate.
      * intros _. eexists. split; [reflexivity|]. by simpl.
    + assert (Hs : ~ stored).
      { intros (id' & [= <-] & [p Hp]). congruence. }
      rewrite (solve_problem_absent _ keywords _ E). simpl.
      repeat split; try done; eauto.
  - assert (Hs : ~ stored).
    { intros (id & -> & _). by destruct (Hno id). }
    rewrite (solve_problem_no_text _ keywords _ Hno).
    destruct (hashable problem_id) eqn:Hh; simpl.
    + repeat split; try done; eauto.
    + repeat split; try done.
Qed.

(** C5. On two processes with the same registry, two calls on a stored
    identifier both return, whatever keyword arguments each is given,
    [num_reads] and [annealing_time] among them, and their results agree on
    every field but [result_id]. *)
Theorem solve_problem_ignores_reads (problem_id : string)
    (keywords1 keywords2 : gmap string pyval) (w1 w2 : Process) :
  server w1 = server w2 ->
  is_Some (problems (server w1) !! problem_id) ->
  exists r1 r2,
    fst (solve_problem uuid4 (PStr problem_id) keywords1 w1) = Return r1 /\
    fst (solve_problem uuid4 (PStr problem_id) keywords2 w2) = Return r2 /\
    result_problem_id r1 = result_problem_id r2 /\
    energy r1 = energy r2 /\
    solution r1 = solution r2 /\
    qpu_access_time r1 = qpu_access_time r2 /\
    execution_time r1 = execution_time r2 /\
    total_annealing_time r1 = total_annealing_time r2 /\
    status r1 = status r2.
Proof.
  intros Hserver [p Hp].
  assert (Hp2 : problems (server w2) !! problem_id = Some p)
    by (by rewrite <- Hserver).
  rewrite (solve_problem_present _ keywords1 _ _ Hp).
  rewrite (solve_problem_present _ keywords2 _ _ Hp2).
  do 2 eexists. repeat split.
Qed.

(** ** set_simulator_config *)

Lemma in_recognized_types (t : string) :
  existsb (py_eqb (PStr t)) [PStr "dwave"; PStr "neal"] = true
  <-> t = "dwave" \/ t = "neal".
Proof.
  simpl. rewrite orb_false_r, orb_true_iff, !String.eqb_eq. tauto.
Qed.

(** C6. [set_simulator_config] raises (the invalid-type error) exactly when
    the type is neither "dwave" nor "neal"; otherwise it stores both values,
    answers with them and [updated = True], and [get_simulator_status] on
    the state it leaves returns the two stored values. *)
Theorem set_simulator_config_checks_type (u : pyval) (t : string)
    (w : Process) :
  let out := set_simulator_config u (PStr t) w in
  ((exists e, fst out = Raise e) <-> t <> "dwave" /\ t <> "neal") /\
  (fst out = Raise (InvalidSimulatorType (PStr t))
     <-> t <> "dwave" /\ t <> "neal") /\
  (t = "dwave" \/ t = "neal" ->
     fst out = Return {| new_use_simulator := u;
                         new_simulator_type := PStr t;
                         updated := true |} /\
     config (server (snd out))
       = {| use_simulator := u; simulator_type := PStr t |} /\
     fst (get_simulator_status (snd out))
       = Return {| status_use_simulator := u;
                   status_simulator_type := PStr t;
                   using_simulator := u;
                   quantum_hardware_available := false |}).
Proof.
  intros out. subst out. unfold set_simulator_config.
  destruct (existsb (py_eqb (PStr t)) [PStr "dwave"; PStr "neal"]) eqn:E.
  - apply in_recognized_types in E. run_M.
    split; [|split].
    + split; [intros [e He]; discriminate | tauto].
    + split; [discriminate | tauto].
    + auto.
  - assert (Hno : ~ (t = "dwave" \/ t = "neal")).
    { rewrite <- in_recognized_types, E. discriminate. }
    run_M. split; [|split].
    + split; [tauto | eauto].
    + split; [tauto | reflexivity].
    + tauto.
Qed.

(** ** What a call does to the state *)

Lemma find_problem_some problem_id s p :
  find_problem problem_id s = Return (Some p) ->
  exists id, problem_id = PStr id /\ problems s !! id = Some p.
Proof.
  destruct problem_id; simpl; unfold py_hash_check.
  all: try (destruct (hashable _); simpl).
  all: try (intros [=]; fail).
  intros [= H]. eauto.
Qed.

(** Every call changes the state in one of the four ways of
    [step_effect]. *)
Lemma perform_effect op w :
  step_effect uuid4 w (snd (perform uuid4 float_of_str op w)).
Proof.
  destruct w as [s n].
  destruct op as [|u t|Q d|h J d|id kw|]; simpl.
  - apply (effect_none _ {| server := s; drawn := n |}). simpl. lia.
  - unfold set_simulator_config.
    destruct (negb _); run_M.
    + apply (effect_none _ {| server := s; drawn := n |}). simpl. lia.
    + apply (effect_config _ {| server := s; drawn := n |}).
  - unfold create_qubo. run_M.
    case_outcome.
    + destruct (count_variables _); simpl;
        apply (effect_problem _ {| server := s; drawn := n |}).
    + apply (effect_none _ {| server := s; drawn := n |}). simpl. lia.
  - unfold create_ising. run_M.
    case_outcome.
    + case_outcome.
      * apply (effect_problem _ {| server := s; drawn := n |}).
      * apply (effect_none _ {| server := s; drawn := n |}). simpl. lia.
    + apply (effect_none _ {| server := s; drawn := n |}). simpl. lia.
  - unfold solve_problem. run_M.
    destruct (find_problem id s) as [[p|]|e] eqn:E; simpl.
    + rewrite kwargs_no_num_reads. simpl.
      destruct (find_problem_some _ _ _ E) as (id' & -> & Hp).
      by apply (effect_result _ {| server := s; drawn := n |} _ id').
    + apply (effect_none _ {| server := s; drawn := n |}). simpl. lia.
    + apply (effect_none _ {| server := s; drawn := n |}). simpl. lia.
  - apply (effect_none _ {| server := s; drawn := n |}). simpl. lia.
Qed.

Lemma step_effect_drawn w w' :
  step_effect uuid4 w w' -> (drawn w <= drawn w')%nat.
Proof. destruct 1; simpl; lia. Qed.

Lemma step_effect_invariant w w' :
  step_effect uuid4 w w' ->
  results_reference_problems (server w) ->
  results_reference_problems (server w').
Proof.
  intros Hstep Hinv. destruct Hstep as [n _|u t|p|r id Hr Hid]; simpl;
    try exact Hinv.
  - intros rid r Hrid. simpl in *.
    destruct (Hinv rid r Hrid) as (id & Hr & Hsome).
    exists id. split; [done|].
    destruct (decide (uuid4 (drawn w) = id)) as [->|Hne].
    + rewrite lookup_insert_eq. eauto.
    + by rewrite lookup_insert_ne.
  - intros rid r' Hrid. simpl in *.
    destruct (decide (uuid4 (drawn w) = rid)) as [<-|Hne].
    + rewrite lookup_insert_eq in Hrid. injection Hrid as <-. eauto.
    + rewrite lookup_insert_ne in Hrid by done. eauto.
Qed.

(** C8. In every state reachable from a freshly built server by calls of
    the six methods, whatever their arguments and whether they return or
    raise, the [problem_id] of every stored result is a key of the problem
    map. *)
Theorem reachable_results_reference_problems (w : Process) :
  reachable uuid4 float_of_str w ->
  results_reference_problems (server w).
Proof.
  induction 1 as [config n|op w Hreach IH].
  - intros id r. simpl. by rewrite lookup_empty.
  - eapply step_effect_invariant; [apply perform_effect | exact IH].
Qed.

(** ** Fresh identifiers *)

(** A creation that returns has drawn one identifier, answers with it, and
    has stored a problem under it. *)
Lemma perform_create op w r w1 :
  perform uuid4 float_of_str op w = (Return (OfCreate r), w1) ->
  created_problem_id r = uuid4 (drawn w) /\
  drawn w1 = S (drawn w) /\
  is_Some (problems (server w1) !! uuid4 (drawn w)).
Proof.
  destruct w as [s n].
  destruct op as [|u t|Q d|h J d|id kw|]; simpl.
  - run_M. intros [=].
  - unfold set_simulator_config. destruct (negb _); run_M; intros [=].
  - unfold create_qubo. run_M. case_outcome; [|intros [=]].
    destruct (count_variables _); simpl; intros [= <- <-]; simpl.
    rewrite lookup_insert_eq. eauto.
  - unfold create_ising. run_M. case_outcome; [|intros [=]].
    case_outcome; intros [= <- <-]; simpl.
    rewrite lookup_insert_eq. eauto.
  - unfold solve_problem. run_M.
    destruct (find_problem id s) as [[p|]|e]; simpl; [|intros [=]..].
    rewrite kwargs_no_num_reads. simpl. intros [=].
  - run_M. intros [=].
Qed.

Section Fresh.

(** The generator never hands out the same identifier twice. *)
Hypothesis uuid4_fresh : forall m n, uuid4 m = uuid4 n -> m = n.

Lemma step_effect_keeps_problem w w' n :
  step_effect uuid4 w w' -> (n < drawn w)%nat ->
  problems (server w') !! uuid4 n = problems (server w) !! uuid4 n.
Proof.
  intros Hstep Hn. destruct Hstep as [m _|u t|p|r id Hr Hid]; simpl;
    try reflexivity.
  apply lookup_insert_ne. intros Heq. apply uuid4_fresh in Heq. lia.
Qed.

Lemma exec_keeps_problem ops w n :
  (n < drawn w)%nat ->
  (n < drawn (exec uuid4 float_of_str ops w))%nat /\
  problems (server (exec uuid4 float_of_str ops w)) !! uuid4 n
  = problems (server w) !! uuid4 n.
Proof.
  revert w. induction ops as [|op ops IH]; intros w Hn; [done|].
  simpl. unfold exec in *. simpl.
  pose proof (perform_effect op w) as Hstep.
  pose proof (step_effect_drawn _ _ Hstep) as Hle.
  destruct (IH (snd (perform uuid4 float_of_str op w))) as [Hlt Hsame];
    [lia|].
  split; [exact Hlt|].
  rewrite Hsame. by apply step_effect_keeps_problem.
Qed.

(** C9. Of two creations that return on the same registry, the second after
    the first and any calls in between, the identifiers differ, whatever
    the arguments, and what the first one stored under its identifier is
    still stored, unchanged, after the second. *)
Theorem created_ids_distinct (w w1 w2 : Process) (op1 op2 : operation)
    (between : list operation) (r1 r2 : ProblemSummary) :
  perform uuid4 float_of_str op1 w = (Return (OfCreate r1), w1) ->
  perform uuid4 float_of_str op2 (exec uuid4 float_of_str between w1)
    = (Return (OfCreate r2), w2) ->
  created_problem_id r1 <> created_problem_id r2 /\
  is_Some (problems (server w1) !! created_problem_id r1) /\
  problems (server w2) !! created_problem_id r1
  = problems (server w1) !! created_problem_id r1.
Proof.
  intros H1 H2.
  destruct (perform_create _ _ _ _ H1) as (Hid1 & Hd1 & Hstored).
  destruct (perform_create _ _ _ _ H2) as (Hid2 & _ & _).
  assert (Hn : (drawn w < drawn w1)%nat) by lia.
  destruct (exec_keeps_problem between w1 (drawn w) Hn) as [Hlt Hsame].
  rewrite Hid1, Hid2. split; [|split].
  - intros Heq. apply uuid4_fresh in Heq. lia.
  - exact Hstored.
  - rewrite <- Hsame.
    pose proof (perform_effect op2 (exec uuid4 float_of_str between w1))
      as Hstep.
    rewrite H2 in Hstep. simpl in Hstep.
    by apply step_effect_keeps_problem.
Qed.

End Fresh.

(** ** The dispatcher *)


Lemma get_arg_insert_eq key fallback x (arguments : gmap string pyval) :
  get_arg key fallback (<[key := x]> arguments) = x.
Proof. unfold get_arg. by rewrite lookup_insert_eq. Qed.

Lemma get_arg_insert_ne key key' fallback x (arguments : gmap string pyval) :
  key' <> key ->
  get_arg key fallback (<[key' := x]> arguments)
  = get_arg key fallback arguments.
Proof. intros H. unfold get_arg. by rewrite lookup_insert_ne. Qed.




(** ** create_qubo: counting the variables *)

Lemma hashable_native ij : hashable (native_key ij) = true.
Proof. reflexivity. Qed.

Lemma format_pairs_valid items pairs (formatted : pydict Q)
    (stored : list (Z * Z)) :
  Forall2 (valid_entry float_of_str) items pairs ->
  dict_keys formatted = native_key <$> stored ->
  NoDup stored ->
  exists formatted' stored',
    format_pairs float_of_str items formatted = Return formatted' /\
    dict_keys formatted' = native_key <$> stored' /\
    NoDup stored' /\
    forall ij, ij ∈ stored' <-> ij ∈ stored \/ ij ∈ pairs.
Proof.
  intros Hvalid. revert formatted stored.
  induction Hvalid as [|[k v] ij items pairs [Hk [x Hx]] _ IH];
    intros formatted stored Hkeys Hnd.
  - exists formatted, stored. repeat split; try done.
    + tauto.
    + intros [?|Hin]; [done|]. by apply elem_of_nil in Hin.
  - simpl in Hk, Hx. cbn [format_pairs].
    rewrite (format_key_pair _ _ Hk). cbn [mbind outcome_bind].
    rewrite Hx. cbn [mbind outcome_bind].
    unfold py_setitem, py_hash_check. rewrite hashable_native.
    cbn [mbind outcome_bind].
    destruct (add_new_spec ij stored Hnd) as [Hnd' Hel].
    destruct (IH (dict_setitem (native_key ij) x formatted)
                 (if decide (ij ∈ stored) then stored
                  else (stored ++ [ij])%list))
      as (formatted' & stored' & Heq & Hkeys' & Hnd'' & Hel').
    { rewrite dict_keys_setitem, Hkeys.
      apply (set_add_embed _ py_eqb_native). }
    { exact Hnd'. }
    exists formatted', stored'. repeat split; try done.
    + intros Hin. apply Hel' in Hin as [Hin|Hin].
      * apply Hel in Hin as [?| ->]; [by left|right; apply list_elem_of_here].
      * right. by apply list_elem_of_further.
    + intros [Hin|Hin]; apply Hel'.
      * left. apply Hel. by left.
      * apply elem_of_cons in Hin as [->|Hin]; [|by right].
        left. apply Hel. by right.
Qed.

Lemma mapM_firsts (stored : list (Z * Z)) :
  mapM (fun k => '(i, _) ← unpack2 k; Return i) (native_key <$> stored)
  = Return (PInt <$> stored.*1).
Proof.
  induction stored as [|ij stored IH]; [done|].
  rewrite !fmap_cons. cbn [mapM]. rewrite IH. done.
Qed.

Lemma mapM_seconds (stored : list (Z * Z)) :
  mapM (fun k => '(_, j) ← unpack2 k; Return j) (native_key <$> stored)
  = Return (PInt <$> stored.*2).
Proof.
  induction stored as [|ij stored IH]; [done|].
  rewrite !fmap_cons. cbn [mapM]. rewrite IH. done.
Qed.

Lemma count_variables_native (formatted : pydict Q) (stored : list (Z * Z)) :
  dict_keys formatted = native_key <$> stored ->
  count_variables formatted
  = Return (Z.of_nat (size (list_to_set (stored.*1 ++ stored.*2) : gset Z))).
Proof.
  intros Hkeys. unfold count_variables.
  rewrite Hkeys, mapM_firsts, mapM_seconds. cbn [mbind outcome_bind].
  by rewrite <- fmap_app, len_py_set_int.
Qed.

Lemma same_indices (stored pairs : list (Z * Z)) :
  (forall ij, ij ∈ stored <-> ij ∈ pairs) ->
  (list_to_set (stored.*1 ++ stored.*2) : gset Z)
  = list_to_set (pairs.*1 ++ pairs.*2).
Proof.
  intros Hsame. apply set_eq. intros x.
  rewrite !elem_of_list_to_set, !elem_of_app, !list_elem_of_fmap.
  split; (intros [(ij & -> & Hin)|(ij & -> & Hin)]; [left|right];
          exists ij; (split; [done|]); by apply Hsame).
Qed.

(** C2. For a coefficient map whose every key is a native integer pair or
    its text ["i,j"] or ["(i,j)"], and whose values are numbers,
    [create_qubo] returns, and [num_variables] is the number of distinct
    integers among the first and second components of the pairs. *)
Theorem create_qubo_num_variables (items : list (pyval * pyval))
    (pairs : list (Z * Z)) (description : pyval) (w : Process) :
  Forall2 (valid_entry float_of_str) items pairs ->
  exists r,
    fst (create_qubo uuid4 float_of_str (PDict items) description w)
    = Return r /\
    num_variables r
    = Z.of_nat (size (list_to_set (pairs.*1 ++ pairs.*2) : gset Z)).
Proof.
  intros Hvalid.
  destruct (format_pairs_valid items pairs [] [] Hvalid eq_refl NoDup_nil_2)
    as (formatted & stored & Hfmt & Hkeys & _ & Hel).
  unfold create_qubo. run_M. rewrite Hfmt. simpl.
  rewrite (count_variables_native _ _ Hkeys). simpl.
  eexists. split; [reflexivity|]. simpl. do 2 f_equal.
  apply same_indices. intros ij. rewrite Hel, elem_of_nil. tauto.
Qed.
(** ** create_ising and the key forms *)

Lemma format_h_valid items (keys : list Z) (formatted : pydict Q)
    (stored : list Z) :
  Forall2 (valid_bias float_of_str) items keys ->
  dict_keys formatted = PInt <$> stored ->
  NoDup stored ->
  exists formatted' stored',
    format_h float_of_str items formatted = Return formatted' /\
    dict_keys formatted' = PInt <$> stored' /\
    NoDup stored' /\
    forall z, z ∈ stored' <-> z ∈ stored \/ z ∈ keys.
Proof.
  intros Hvalid. revert formatted stored.
  induction Hvalid as [|[k v] z items keys [Hk [x Hx]] _ IH];
    intros formatted stored Hkeys Hnd.
  - exists formatted, stored. repeat split; try done.
    + tauto.
    + intros [?|Hin]; [done|]. by apply elem_of_nil in Hin.
  - simpl in Hk, Hx. cbn [format_h].
    assert (Hkey : match k with
                   | PStr s => z ← py_int s; Return (PInt z)
                   | _ => Return k
                   end = Return (PInt z)).
    { destruct Hk as [z|s z Hs]; [done|]. unfold py_int. by rewrite Hs. }
    rewrite Hkey. cbn [mbind outcome_bind].
    rewrite Hx. cbn [mbind outcome_bind].
    unfold py_setitem, py_hash_check. cbn [hashable mbind outcome_bind].
    destruct (add_new_spec z stored Hnd) as [Hnd' Hel].
    destruct (IH (dict_setitem (PInt z) x formatted)
                 (if decide (z ∈ stored) then stored else (stored ++ [z])%list))
      as (formatted' & stored' & Heq & Hkeys' & Hnd'' & Hel').
    { rewrite dict_keys_setitem, Hkeys. apply (set_add_embed _ py_eqb_int). }
    { exact Hnd'. }
    exists formatted', stored'. repeat split; try done.
    + intros Hin. apply Hel' in Hin as [Hin|Hin].
      * apply Hel in Hin as [?| ->]; [by left|right; apply list_elem_of_here].
      * right. by apply list_elem_of_further.
    + intros [Hin|Hin]; apply Hel'.
      * left. apply Hel. by left.
      * apply elem_of_cons in Hin as [->|Hin]; [|by right].
        left. apply Hel. by right.
Qed.

(** C3, as the code has it. For an [h] whose keys are integers, natively
    or as text, with numbers as values, and a valid [J], [create_ising]
    returns and [num_variables] is the number of distinct integers the keys
    of [h] stand for; when no two keys stand for the same integer, that is
    the number of entries of [h]. *)
Theorem create_ising_num_variables (h_items J_items : list (pyval * pyval))
    (keys : list Z) (pairs : list (Z * Z)) (description : pyval)
    (w : Process) :
  Forall2 (valid_bias float_of_str) h_items keys ->
  Forall2 (valid_entry float_of_str) J_items pairs ->
  exists r,
    fst (create_ising uuid4 float_of_str (PDict h_items) (PDict J_items)
           description w) = Return r /\
    num_variables r = Z.of_nat (size (list_to_set keys : gset Z)) /\
    (NoDup keys -> num_variables r = len h_items).
Proof.
  intros Hh HJ.
  destruct (format_h_valid h_items keys [] [] Hh eq_refl NoDup_nil_2)
    as (fh & stored & Hfh & Hkeys & Hnd & Hel).
  destruct (format_pairs_valid J_items pairs [] [] HJ eq_refl
              NoDup_nil_2) as (fJ & ? & HfJ & _).
  unfold create_ising. run_M. rewrite Hfh. simpl. rewrite HfJ. simpl.
  eexists. split; [reflexivity|]. simpl.
  assert (Hsize : len fh = Z.of_nat (size (list_to_set keys : gset Z))).
  { unfold len. f_equal.
    rewrite <- (length_fmap fst fh). change (fst <$> fh) with (dict_keys fh).
    rewrite Hkeys, length_fmap.
    rewrite <- (size_list_to_set (C := gset Z) stored Hnd). f_equal.
    apply set_eq. intros z. rewrite !elem_of_list_to_set, Hel, elem_of_nil.
    tauto. }
  split; [exact Hsize|].
  intros Hnodup. rewrite Hsize. unfold len. f_equal.
  rewrite (size_list_to_set (C := gset Z) keys Hnodup).
  symmetry. by eapply Forall2_length.
Qed.

Lemma len_pair_set (i j : Z) :
  len (py_set [PInt i; PInt j]) = if decide (i = j) then 1 else 2.
Proof.
  unfold py_set. cbn [fold_left set_add].
  destruct (py_eqb (PInt i) (PInt j)) eqn:E.
  - apply py_eqb_int in E. by rewrite decide_True.
  - rewrite decide_False; [done|]. intros ->.
    by rewrite (proj2 (py_eqb_int j j) eq_refl) in E.
Qed.

(** C7. A map with the one key ["i,j"] or ["(i,j)"] and the map with the
    native key [(i, j)] and the same value make [create_qubo] do the same
    thing: the same outcome, [num_variables] included, and the same state,
    stored coefficient map included. For a value that is a number the call
    returns, the stored map is the native key with the converted value, and
    [num_variables] is 1 or 2. *)
Theorem create_qubo_key_forms (i j : Z) (v description : pyval) (w : Process) :
  create_qubo uuid4 float_of_str (PDict [(PStr (text_key i j), v)])
    description w
  = create_qubo uuid4 float_of_str (PDict [(PTuple [PInt i; PInt j], v)])
      description w /\
  create_qubo uuid4 float_of_str (PDict [(PStr (paren_key i j), v)])
    description w
  = create_qubo uuid4 float_of_str (PDict [(PTuple [PInt i; PInt j], v)])
      description w /\
  (forall x, py_float float_of_str v = Return x ->
     create_qubo uuid4 float_of_str (PDict [(PTuple [PInt i; PInt j], v)])
       description w
     = (Return {| created_problem_id := uuid4 (drawn w);
                  type := "qubo";
                  description := description;
                  num_variables := if decide (i = j) then 1 else 2 |},
        {| server :=
             store_problem (uuid4 (drawn w))
               (QuboProblem (uuid4 (drawn w))
                  [(PTuple [PInt i; PInt j], x)] description)
               (server w);
           drawn := S (drawn w) |})).
Proof.
  split; [|split].
  - unfold create_qubo. cbn [py_items format_pairs mbind outcome_bind].
    by rewrite format_key_text.
  - unfold create_qubo. cbn [py_items format_pairs mbind outcome_bind].
    by rewrite format_key_paren.
  - intros x Hx. unfold create_qubo. run_M. rewrite Hx. simpl.
    unfold count_variables.
    cbn [dict_keys map fst mapM unpack2 mbind outcome_bind mret outcome_ret
         app].
    by rewrite len_pair_set.
Qed.
(** ** create_qubo: a key that does not unpack *)

Lemma format_key_stays k : comma_text k = false -> format_key k = Return k.
Proof. destruct k; simpl; try done. by intros ->. Qed.

Lemma format_key_hashable k k' :
  hashable k = true -> format_key k = Return k' -> hashable k' = true.
Proof.
  destruct k; simpl; try (intros ? [= <-]; done).
  destruct (contains "," s); [|intros ? [= <-]; done].
  intros _. destruct (unpack_ints _) as [[i j]|e]; simpl; [|done].
  by intros [= <-].
Qed.

Lemma format_pairs_keeps_bad items (formatted formatted' : pydict Q) :
  format_pairs float_of_str items formatted = Return formatted' ->
  Exists (fun k => unpackable k = false) (dict_keys formatted) \/
  Exists (fun kv => comma_text kv.1 = false /\ unpackable kv.1 = false) items ->
  Exists (fun k => unpackable k = false) (dict_keys formatted').
Proof.
  revert formatted. induction items as [|[k v] items IH]; intros formatted.
  - simpl. intros [= <-] [H|H]; [done|]. by apply Exists_nil in H.
  - cbn [format_pairs].
    destruct (format_key k) as [k'|e] eqn:Ek; cbn [mbind outcome_bind]; [|done].
    destruct (py_float float_of_str v) as [x|e]; cbn [mbind outcome_bind];
      [|done].
    unfold py_setitem, py_hash_check.
    destruct (hashable k'); cbn [mbind outcome_bind]; [|done].
    intros Hfmt Hbad. apply (IH _ Hfmt).
    rewrite dict_keys_setitem.
    destruct Hbad as [Hbad|Hbad].
    + left. apply Exists_exists in Hbad as (y & Hin & Hy).
      apply Exists_exists. exists y. split; [by apply set_add_keeps|done].
    + apply Exists_cons in Hbad as [[Hc Hu]|Hbad]; [left|by right].
      simpl in Hc, Hu. rewrite (format_key_stays _ Hc) in Ek.
      injection Ek as <-. by apply set_add_not_unpackable.
Qed.

Lemma format_pairs_normalizes items (formatted : pydict Q) :
  Forall (entry_normalizes float_of_str) items ->
  exists formatted',
    format_pairs float_of_str items formatted = Return formatted'.
Proof.
  intros Hall. revert formatted.
  induction Hall as [|[k v] items (Hh & [k' Hk] & [x Hx]) _ IH];
    intros formatted.
  - by exists formatted.
  - simpl in Hh, Hk, Hx. cbn [format_pairs].
    rewrite Hk. cbn [mbind outcome_bind]. rewrite Hx. cbn [mbind outcome_bind].
    unfold py_setitem, py_hash_check.
    rewrite (format_key_hashable _ _ Hh Hk). cbn [mbind outcome_bind].
    apply IH.
Qed.

Lemma mapM_firsts_raise (keys : list pyval) :
  Exists (fun k => unpackable k = false) keys ->
  exists k, mapM (fun k => '(i, _) ← unpack2 k; Return i) keys
            = Raise (CannotUnpack k).
Proof.
  induction keys as [|k keys IH]; [by intros ?%Exists_nil|].
  intros Hbad. cbn [mapM].
  destruct (unpack2 k) as [[i j]|e] eqn:E; cbn [mbind outcome_bind].
  - apply Exists_cons in Hbad as [Hk|Hbad].
    + unfold unpackable in Hk. by rewrite E in Hk.
    + destruct (IH Hbad) as [k0 ->]. by exists k0.
  - exists k. by rewrite (unpack2_raise _ _ E).
Qed.

(** C10, as the code has it. When every entry of [Q] gets past the
    normalising loop, and some key is neither text with a comma nor
    something that unpacks into two items, [create_qubo] raises from the
    [num_variables] computation, after the problem record was stored: the
    state it leaves holds the record under the identifier drawn. *)
Theorem create_qubo_stores_before_counting (items : list (pyval * pyval))
    (description : pyval) (w : Process) :
  Forall (entry_normalizes float_of_str) items ->
  Exists (fun kv => comma_text kv.1 = false /\ unpackable kv.1 = false) items ->
  exists k formatted_Q,
    create_qubo uuid4 float_of_str (PDict items) description w
    = (Raise (CannotUnpack k),
       {| server :=
            store_problem (uuid4 (drawn w))
              (QuboProblem (uuid4 (drawn w)) formatted_Q description)
              (server w);
          drawn := S (drawn w) |}) /\
    problems (server (snd (create_qubo uuid4 float_of_str (PDict items)
                             description w))) !! uuid4 (drawn w)
    = Some (QuboProblem (uuid4 (drawn w)) formatted_Q description).
Proof.
  intros Hall Hbad.
  destruct (format_pairs_normalizes items [] Hall) as [formatted Hfmt].
  pose proof (format_pairs_keeps_bad _ _ _ Hfmt (or_intror Hbad)) as Hkeys.
  destruct (mapM_firsts_raise _ Hkeys) as [k Hk].
  exists k, formatted.
  assert (Hrun : create_qubo uuid4 float_of_str (PDict items) description w
    = (Raise (CannotUnpack k),
       {| server :=
            store_problem (uuid4 (drawn w))
              (QuboProblem (uuid4 (drawn w)) formatted description)
              (server w);
          drawn := S (drawn w) |})).
  { unfold create_qubo. run_M. rewrite Hfmt. simpl.
    unfold count_variables. rewrite Hk. reflexivity. }
  split; [exact Hrun|]. rewrite Hrun. simpl. apply lookup_insert_eq.
Qed.
End Properties.

(** * Further properties of the registry, the dispatcher and the adapter *)

Section Coverage.

Variable uuid4 : nat -> string.
Variable float_of_str : string -> option Q.

(** ** The dispatcher's envelope *)

(** What the [try] block of [call_tool] makes of the call it selects. *)
Lemma try_wrap (c : M ToolResult) (w : Process) :
  try_except
    (result ← c; mret [ {| content_type := "text"; text := result |} ])
    (fun e => raise (NoMessageWhile e)) w
  = match c w with
    | (Return r, w') => (Return [ {| content_type := "text"; text := r |} ], w')
    | (Raise e, w') => (Raise (NoMessageWhile e), w')
    end.
Proof. run_M. by destruct (c w) as [[r|e] w']. Qed.

(** X1. A name that is none of the six tool names makes the dispatcher
    fail and leaves the state as it was. No [McpError] is built for it:
    what leaves is the [AttributeError] of the [except] clause's attempt,
    raised while the [AttributeError] of the attempt on the unknown-tool
    text was handled. *)
Theorem call_tool_unknown (name : string) (arguments : gmap string pyval)
    (w : Process) :
  (forall tool, name <> value tool) ->
  call_tool uuid4 float_of_str name arguments w
  = (Raise (NoMessageWhile (NoMessage ("Unknown tool: " +:+ name))), w) /\
  class_of (NoMessageWhile (NoMessage ("Unknown tool: " +:+ name)))
  = AttributeError.
Proof.
  intros Hname. split; [|done]. unfold call_tool. rewrite try_wrap.
  pose proof (Hname GET_SIMULATOR_STATUS) as H1.
  pose proof (Hname SET_SIMULATOR_CONFIG) as H2.
  pose proof (Hname CREATE_QUBO) as H3.
  pose proof (Hname CREATE_ISING) as H4.
  pose proof (Hname SOLVE_PROBLEM) as H5.
  pose proof (Hname GET_ANNEALING_TIME_STATUS) as H6.
  simpl in H1, H2, H3, H4, H5, H6.
  apply String.eqb_neq in H1, H2, H3, H4, H5, H6.
  by rewrite H1, H2, H3, H4, H5, H6.
Qed.

(** The call [call_tool] selects, when it selects one. *)
Lemma call_tool_state name arguments w :
  snd (call_tool uuid4 float_of_str name arguments w) = w \/
  exists op,
    snd (call_tool uuid4 float_of_str name arguments w)
    = snd (perform uuid4 float_of_str op w).
Proof.
  unfold call_tool. rewrite try_wrap.
  assert (Hsnd : forall c : M ToolResult,
    snd match c w with
        | (Return r, w') =>
            (Return [ {| content_type := "text"; text := r |} ], w')
        | (Raise e, w') => (Raise (NoMessageWhile e), w')
        end = snd (c w)).
  { intros c. by destruct (c w) as [[r|e] w']. }
  rewrite Hsnd.
  destruct (String.eqb name "get_simulator_status");
    [right; by exists GetSimulatorStatus|].
  destruct (String.eqb name "set_simulator_config");
    [right; by eexists (SetSimulatorConfig _ _)|].
  destruct (String.eqb name "create_qubo").
  { destruct (missing "Q" arguments); [by left|].
    right. by eexists (CreateQubo _ _). }
  destruct (String.eqb name "create_ising").
  { destruct (missing "h" arguments || missing "J" arguments); [by left|].
    right. by eexists (CreateIsing _ _ _). }
  destruct (String.eqb name "solve_problem").
  { destruct (missing "problem_id" arguments); [by left|].
    right. by eexists (SolveProblem _ _). }
  destruct (String.eqb name "get_annealing_time_status");
    [right; by exists GetAnnealingTimeStatus|].
  by left.
Qed.

(** X3. A call through the dispatcher, returning or raising, keeps the
    invariant that every stored result names a stored problem. *)
Theorem call_tool_keeps_references (name : string)
    (arguments : gmap string pyval) (w : Process) :
  results_reference_problems (server w) ->
  results_reference_problems
    (server (snd (call_tool uuid4 float_of_str name arguments w))).
Proof.
  intros Hinv.
  destruct (call_tool_state name arguments w) as [->|[op ->]]; [done|].
  eapply step_effect_invariant; [apply perform_effect | exact Hinv].
Qed.

(** X4. The dispatcher's [solve_problem] reads [problem_id] and nothing
    else: two argument maps that agree on it, whatever else they hold
    ([num_reads] and [annealing_time] too), give the same outcome and the
    same state. *)
Theorem call_tool_solve_reads_problem_id
    (arguments1 arguments2 : gmap string pyval) (w : Process) :
  arguments1 !! "problem_id" = arguments2 !! "problem_id" ->
  call_tool uuid4 float_of_str "solve_problem" arguments1 w
  = call_tool uuid4 float_of_str "solve_problem" arguments2 w.
Proof.
  intros Hsame. unfold call_tool. rewrite !try_wrap. simpl.
  unfold missing, get_arg. by rewrite Hsame.
Qed.

End Coverage.

Section Registry.

Variable uuid4 : nat -> string.
Variable float_of_str : string -> option Q.

(** ** Creation: what is stored, and what a failure leaves *)

(** [create_qubo] step by step. *)
Lemma create_qubo_unfold Q d w :
  create_qubo uuid4 float_of_str Q d w
  = match items ← py_items Q; format_pairs float_of_str items [] with
    | Raise e => (Raise e, {| server := server w; drawn := S (drawn w) |})
    | Return fq =>
        let id := uuid4 (drawn w) in
        let w' := {| server := store_problem id (QuboProblem id fq d)
                                 (server w);
                     drawn := S (drawn w) |} in
        match count_variables fq with
        | Return n =>
            (Return {| created_problem_id := id; type := "qubo";
                       description := d; num_variables := n |}, w')
        | Raise e => (Raise e, w')
        end
    end.
Proof.
  unfold create_qubo. run_M. case_outcome; [|done].
  by destruct (count_variables _).
Qed.

(** [create_ising] step by step. *)
Lemma create_ising_unfold h J d w :
  create_ising uuid4 float_of_str h J d w
  = match items ← py_items h; format_h float_of_str items [] with
    | Raise e => (Raise e, {| server := server w; drawn := S (drawn w) |})
    | Return fh =>
        match items ← py_items J; format_pairs float_of_str items [] with
        | Raise e =>
            (Raise e, {| server := server w; drawn := S (drawn w) |})
        | Return fJ =>
            let id := uuid4 (drawn w) in
            (Return {| created_problem_id := id; type := "ising";
                       description := d; num_variables := len fh |},
             {| server := store_problem id (IsingProblem id fh fJ d)
                            (server w);
                drawn := S (drawn w) |})
        end
    end.
Proof.
  unfold create_ising. run_M. reflexivity.
Qed.

Lemma bind_items_return {A} (v : pyval)
    (k : list (pyval * pyval) -> outcome A) (a : A) :
  (items ← py_items v; k items) = Return a ->
  exists items, v = PDict items /\ k items = Return a.
Proof. destruct v; try done. simpl. eauto. Qed.

(** X5. When [create_qubo] returns, the summary carries the identifier just
    drawn, the type "qubo" and the description given; the problem map holds
    under this identifier the record with the normalised coefficients and
    the description; every other entry of the problem map, the result map
    and the configuration are as before. *)
Theorem create_qubo_returns_stored (Q about : pyval)
    (w w' : Process) (r : ProblemSummary) :
  create_qubo uuid4 float_of_str Q about w = (Return r, w') ->
  created_problem_id r = uuid4 (drawn w) /\
  type r = "qubo" /\
  description r = about /\
  (exists items formatted_Q,
     Q = PDict items /\
     format_pairs float_of_str items [] = Return formatted_Q /\
     problems (server w') !! created_problem_id r
     = Some (QuboProblem (created_problem_id r) formatted_Q about)) /\
  (forall id, id <> created_problem_id r ->
     problems (server w') !! id = problems (server w) !! id) /\
  results (server w') = results (server w) /\
  config (server w') = config (server w) /\
  drawn w' = S (drawn w).
Proof.
  rewrite create_qubo_unfold.
  destruct (mbind _ _) as [fq|e] eqn:Efq; [|done]. cbn zeta.
  destruct (count_variables fq) as [n|e]; [|done].
  intros [= <- <-]. simpl.
  destruct (bind_items_return _ _ _ Efq) as (items & -> & Hfq).
  repeat split; try done.
  - exists items, fq. repeat split; try done. apply lookup_insert_eq.
  - intros id Hid. by apply lookup_insert_ne.
Qed.


(** X6. When [create_ising] returns, the summary carries the identifier
    just drawn, the type "ising", the description given and the number of
    entries of the normalised [h]; the problem map holds under this
    identifier the record with the normalised [h] and [J]; the rest of the
    registry is as before. *)
Theorem create_ising_returns_stored (h J about : pyval)
    (w w' : Process) (r : ProblemSummary) :
  create_ising uuid4 float_of_str h J about w = (Return r, w') ->
  created_problem_id r = uuid4 (drawn w) /\
  type r = "ising" /\
  description r = about /\
  (exists h_items J_items formatted_h formatted_J,
     h = PDict h_items /\ J = PDict J_items /\
     format_h float_of_str h_items [] = Return formatted_h /\
     format_pairs float_of_str J_items [] = Return formatted_J /\
     num_variables r = len formatted_h /\
     problems (server w') !! created_problem_id r
     = Some (IsingProblem (created_problem_id r) formatted_h formatted_J
               about)) /\
  (forall id, id <> created_problem_id r ->
     problems (server w') !! id = problems (server w) !! id) /\
  results (server w') = results (server w) /\
  config (server w') = config (server w) /\
  drawn w' = S (drawn w).
Proof.
  rewrite create_ising_unfold.
  destruct (mbind _ (py_items h)) as [fh|e] eqn:Efh; [|done].
  destruct (mbind _ (py_items J)) as [fJ|e] eqn:EfJ; [|done]. cbn zeta.
  intros [= <- <-]. simpl.
  destruct (bind_items_return _ _ _ Efh) as (h_items & -> & Hfh).
  destruct (bind_items_return _ _ _ EfJ) as (J_items & -> & HfJ).
  repeat split; try done.
  - exists h_items, J_items, fh, fJ. repeat split; try done.
    apply lookup_insert_eq.
  - intros id Hid. by apply lookup_insert_ne.
Qed.

(** X7. [create_ising] is all or nothing: when it raises, only the
    generator has moved; the registry is exactly as it was. *)
Theorem create_ising_raise_leaves_registry (h J about : pyval)
    (w w' : Process) (e : exn) :
  create_ising uuid4 float_of_str h J about w = (Raise e, w') ->
  server w' = server w /\ drawn w' = S (drawn w).
Proof.
  rewrite create_ising_unfold.
  destruct (mbind _ (py_items h)) as [fh|e1]; [|by intros [= _ <-]].
  destruct (mbind _ (py_items J)) as [fJ|e2]; [done|by intros [= _ <-]].
Qed.

Lemma mapM_firsts_error (keys : list pyval) e :
  mapM (fun k => '(i, _) ← unpack2 k; Return i) keys = Raise e ->
  exists k, k ∈ keys /\ e = CannotUnpack k.
Proof.
  induction keys as [|k keys IH]; [done|]. cbn [mapM].
  destruct (unpack2 k) as [[i j]|e1] eqn:E; cbn [mbind outcome_bind].
  - destruct (mapM _ keys) as [l|e2]; cbn [mbind outcome_bind]; [done|].
    intros [= <-]. destruct (IH eq_refl) as (k0 & Hin & ->).
    exists k0. split; [by apply list_elem_of_further|done].
  - intros [= <-]. exists k.
    split; [apply list_elem_of_here | by apply unpack2_raise].
Qed.

Lemma mapM_seconds_error (keys : list pyval) e :
  mapM (fun k => '(_, j) ← unpack2 k; Return j) keys = Raise e ->
  exists k, k ∈ keys /\ e = CannotUnpack k.
Proof.
  induction keys as [|k keys IH]; [done|]. cbn [mapM].
  destruct (unpack2 k) as [[i j]|e1] eqn:E; cbn [mbind outcome_bind].
  - destruct (mapM _ keys) as [l|e2]; cbn [mbind outcome_bind]; [done|].
    intros [= <-]. destruct (IH eq_refl) as (k0 & Hin & ->).
    exists k0. split; [by apply list_elem_of_further|done].
  - intros [= <-]. exists k.
    split; [apply list_elem_of_here | by apply unpack2_raise].
Qed.

Lemma count_variables_error (formatted : pydict Q) e :
  count_variables formatted = Raise e ->
  exists k, k ∈ dict_keys formatted /\ e = CannotUnpack k.
Proof.
  unfold count_variables.
  destruct (mapM (fun k => '(i, _) ← unpack2 k; Return i)
              (dict_keys formatted)) as [firsts|e1] eqn:E1;
    cbn [mbind outcome_bind].
  - destruct (mapM (fun k => '(_, j) ← unpack2 k; Return j) _)
      as [seconds|e2] eqn:E2; cbn [mbind outcome_bind]; [done|].
    intros [= <-]. by apply mapM_seconds_error.
  - intros [= <-]. by apply mapM_firsts_error.
Qed.

(** X8. When [create_qubo] raises, either the registry is exactly as it
    was, or the error is the failure to unpack one of the stored keys and
    the record is already in the problem map, under the identifier drawn:
    no other error leaves a record behind. *)
Theorem create_qubo_raise_cases (Q about : pyval) (w w' : Process)
    (e : exn) :
  create_qubo uuid4 float_of_str Q about w = (Raise e, w') ->
  drawn w' = S (drawn w) /\
  (server w' = server w \/
   exists k formatted_Q,
     e = CannotUnpack k /\ k ∈ dict_keys formatted_Q /\
     server w'
     = store_problem (uuid4 (drawn w))
         (QuboProblem (uuid4 (drawn w)) formatted_Q about) (server w)).
Proof.
  rewrite create_qubo_unfold.
  destruct (mbind _ _) as [fq|e1]; [|intros [= _ <-]; by split; [|left]].
  cbn zeta. destruct (count_variables fq) as [n|e2] eqn:E; [done|].
  intros [= <- <-]. split; [done|]. right.
  destruct (count_variables_error _ _ E) as (k & Hin & ->).
  by exists k, fq.
Qed.

(** ** Solving: what is stored, and what a failure leaves *)

(** X9. When [solve_problem] returns, the identifier given is a text, the
    key of a stored problem; the result carries the identifier just drawn
    and the result map holds it under this identifier; every other result,
    the problem map and the configuration are as before. When it raises,
    with the not-found error or because the identifier has no hash, the
    state is exactly as it was. *)
Theorem solve_problem_returns_stored (problem_id : pyval)
    (keywords : gmap string pyval) (w : Process) :
  match solve_problem uuid4 problem_id keywords w with
  | (Return r, w') =>
      (exists id, problem_id = PStr id /\
                  is_Some (problems (server w) !! id)) /\
      result_id r = uuid4 (drawn w) /\
      results (server w') !! result_id r = Some r /\
      (forall id, id <> result_id r ->
         results (server w') !! id = results (server w) !! id) /\
      problems (server w') = problems (server w) /\
      config (server w') = config (server w) /\
      drawn w' = S (drawn w)
  | (Raise e, w') =>
      w' = w /\
      (e = ProblemNotFound problem_id \/ e = Unhashable problem_id)
  end.
Proof.
  unfold solve_problem. run_M.
  destruct (find_problem problem_id (server w)) as [[p|]|e] eqn:E; simpl.
  - rewrite kwargs_no_num_reads. simpl.
    destruct (find_problem_some _ _ _ E) as (id & -> & Hp).
    repeat split; try done.
    + exists id. split; [done|]. by eexists.
    + apply lookup_insert_eq.
    + intros id' Hid. by apply lookup_insert_ne.
  - auto.
  - split; [done|]. right.
    destruct problem_id; simpl in E; try done;
      unfold py_hash_check in E; simpl in E;
      try (destruct (forallb hashable l)); simpl in E; congruence.
Qed.

(** ** Nothing is ever removed *)

Lemma step_effect_keeps_keys w w' :
  step_effect uuid4 w w' ->
  forall id,
    (is_Some (problems (server w) !! id) ->
     is_Some (problems (server w') !! id)) /\
    (is_Some (results (server w) !! id) ->
     is_Some (results (server w') !! id)).
Proof.
  intros Hstep id.
  destruct Hstep as [n _|u t|p|r id' Hr Hid]; simpl; try done.
  - split; [|done]. intros Hsome.
    destruct (decide (uuid4 (drawn w) = id)) as [->|Hne].
    + rewrite lookup_insert_eq. by eexists.
    + by rewrite lookup_insert_ne.
  - split; [done|]. intros Hsome.
    destruct (decide (uuid4 (drawn w) = id)) as [->|Hne].
    + rewrite lookup_insert_eq. by eexists.
    + by rewrite lookup_insert_ne.
Qed.

Lemma exec_cons op ops w :
  exec uuid4 float_of_str (op :: ops) w
  = exec uuid4 float_of_str ops (snd (perform uuid4 float_of_str op w)).
Proof. reflexivity. Qed.

Lemma exec_keeps (ops : list operation) (w : Process) (id : string) :
  (is_Some (problems (server w) !! id) ->
   is_Some (problems (server (exec uuid4 float_of_str ops w)) !! id)) /\
  (is_Some (results (server w) !! id) ->
   is_Some (results (server (exec uuid4 float_of_str ops w)) !! id)).
Proof.
  revert w. induction ops as [|op ops IH]; intros w; [done|].
  rewrite exec_cons.
  destruct (step_effect_keeps_keys _ _
              (perform_effect uuid4 float_of_str op w) id) as [Hp Hr].
  destruct (IH (snd (perform uuid4 float_of_str op w))) as [Hp' Hr'].
  split; auto.
Qed.

(** X10. No run of calls removes a problem or a result: the identifiers of
    the problem map, and those of the result map, are still there after
    any calls, whether they return or raise, and neither map gets
    smaller. *)
Theorem exec_keeps_keys (ops : list operation) (w : Process) :
  let w' := exec uuid4 float_of_str ops w in
  dom (problems (server w)) ⊆ dom (problems (server w')) /\
  dom (results (server w)) ⊆ dom (results (server w')) /\
  (size (problems (server w)) <= size (problems (server w')))%nat /\
  (size (results (server w)) <= size (results (server w')))%nat.
Proof.
  intros w'.
  assert (Hp : dom (problems (server w)) ⊆ dom (problems (server w'))).
  { intros id Hid%elem_of_dom. apply elem_of_dom.
    by apply (exec_keeps ops w id). }
  assert (Hr : dom (results (server w)) ⊆ dom (results (server w'))).
  { intros id Hid%elem_of_dom. apply elem_of_dom.
    by apply (exec_keeps ops w id). }
  repeat split; try done.
  - rewrite <- !size_dom. by apply subseteq_size.
  - rewrite <- !size_dom. by apply subseteq_size.
Qed.

End Registry.

Section Lifetime.

Variable uuid4 : nat -> string.
Variable float_of_str : string -> option Q.

(** ** A created problem can be solved *)

(** X11. Once a creation has returned an identifier, [solve_problem] on it
    returns, after any further calls and with any keyword arguments, a
    result that names this identifier and is COMPLETED. *)
Theorem created_problem_solves (op : operation) (w w1 : Process)
    (r : ProblemSummary) (later : list operation)
    (keywords : gmap string pyval) :
  perform uuid4 float_of_str op w = (Return (OfCreate r), w1) ->
  exists res,
    fst (solve_problem uuid4 (PStr (created_problem_id r)) keywords
           (exec uuid4 float_of_str later w1)) = Return res /\
    result_problem_id res = PStr (created_problem_id r) /\
    status res = "COMPLETED".
Proof.
  intros Hcreate.
  destruct (perform_create _ _ _ _ _ _ Hcreate) as (-> & _ & Hstored).
  apply (proj1 (exec_keeps uuid4 float_of_str later w1 _)) in Hstored.
  destruct Hstored as [p Hp].
  rewrite (solve_problem_present _ _ keywords _ _ Hp). simpl. eauto.
Qed.

Lemma missing_insert key x (arguments : gmap string pyval) :
  missing key (<[key := x]> arguments) = false.
Proof.
  unfold missing. apply bool_decide_eq_false_2.
  by rewrite lookup_insert_eq.
Qed.

(** The dispatcher's [solve_problem] on a stored identifier. *)
Lemma call_tool_solve_present id extra w p :
  problems (server w) !! id = Some p ->
  let r := mock_result (uuid4 (drawn w)) (PStr id) p in
  call_tool uuid4 float_of_str "solve_problem"
    (<["problem_id" := PStr id]> extra) w
  = (Return [ {| content_type := "text"; text := OfSolve r |} ],
     {| server := store_result (uuid4 (drawn w)) r (server w);
        drawn := S (drawn w) |}).
Proof.
  intros Hp r. unfold call_tool. rewrite try_wrap.
  change (String.eqb "solve_problem" "get_simulator_status") with false.
  change (String.eqb "solve_problem" "set_simulator_config") with false.
  change (String.eqb "solve_problem" "create_qubo") with false.
  change (String.eqb "solve_problem" "create_ising") with false.
  change (String.eqb "solve_problem" "solve_problem") with true.
  cbv iota. rewrite missing_insert, get_arg_insert_eq.
  unfold fmap, M_fmap.
  by rewrite (solve_problem_present _ _ ∅ _ _ Hp).
Qed.

(** X12. The same through the dispatcher: when [create_qubo] returns
    through [call_tool], the one text item carries a summary, and a
    [solve_problem] call with its [problem_id], whatever the other
    arguments, returns one text item with a result that names this
    identifier and is COMPLETED. *)
Theorem call_tool_create_then_solve (arguments extra : gmap string pyval)
    (w w1 : Process) (content : list TextContent) :
  call_tool uuid4 float_of_str "create_qubo" arguments w
  = (Return content, w1) ->
  exists r,
    content = [ {| content_type := "text"; text := OfCreate r |} ] /\
    exists res w2,
      call_tool uuid4 float_of_str "solve_problem"
        (<["problem_id" := PStr (created_problem_id r)]> extra) w1
      = (Return [ {| content_type := "text"; text := OfSolve res |} ], w2) /\
      result_problem_id res = PStr (created_problem_id r) /\
      status res = "COMPLETED".
Proof.
  intros Hcall. unfold call_tool in Hcall. rewrite try_wrap in Hcall.
  simpl in Hcall.
  destruct (missing "Q" arguments); [done|].
  set (Q := get_arg "Q" (PDict []) arguments) in Hcall.
  set (d := get_arg "description" (PStr "") arguments) in Hcall.
  destruct ((OfCreate <$> create_qubo uuid4 float_of_str Q d) w)
    as [[t|e] w'] eqn:Hop; [|done].
  injection Hcall as <- <-.
  assert (Ht : exists r, t = OfCreate r).
  { unfold fmap, M_fmap in Hop.
    destruct (create_qubo _ _ _ _ _) as [[r|e] w0]; [|done].
    injection Hop as <- _. by exists r. }
  destruct Ht as [r ->]. exists r. split; [done|].
  destruct (perform_create uuid4 float_of_str (CreateQubo Q d) w r w' Hop)
    as (Hid & _ & [p Hp]).
  rewrite <- Hid in Hp.
  rewrite (call_tool_solve_present _ extra _ _ Hp).
  do 2 eexists. split; [reflexivity|]. by simpl.
Qed.

(** ** The fabricated solution *)

Lemma qubo_solution :
  dict_setitem (PStr "2") 1 (dict_setitem (PStr "0") 1 (mock_solution 0))
  = qubo_pattern.
Proof. reflexivity. Qed.

Lemma ising_solution :
  dict_setitem (PStr "3") 1 (dict_setitem (PStr "0") 1 (mock_solution (-1)))
  = ising_pattern.
Proof. reflexivity. Qed.

(** X13. The result of solving a stored problem depends on the problem
    through its type only: variables "0" and "2" set among five zeros for
    a QUBO, "0" and "3" set among five minus ones for an Ising model,
    whatever the coefficients; the energy is -1.5 in both cases. *)
Theorem solve_problem_pattern (id : string) (keywords : gmap string pyval)
    (w : Process) (p : Problem) :
  problems (server w) !! id = Some p ->
  exists r,
    fst (solve_problem uuid4 (PStr id) keywords w) = Return r /\
    solution r = match p with
                 | QuboProblem _ _ _ => qubo_pattern
                 | IsingProblem _ _ _ _ => ising_pattern
                 end /\
    energy r = (-1.5)%Q.
Proof.
  intros Hp. rewrite (solve_problem_present _ _ keywords _ _ Hp). simpl.
  eexists. split; [reflexivity|]. simpl.
  split; [by destruct p|done].
Qed.

(** ** The configuration *)

Lemma perform_config op w :
  config (server (snd (perform uuid4 float_of_str op w))) = config (server w)
  \/ recognized (config (server (snd (perform uuid4 float_of_str op w)))).
Proof.
  destruct op as [|u t|Q d|h J d|id kw|]; simpl.
  - by left.
  - unfold set_simulator_config.
    destruct (existsb (py_eqb t) [PStr "dwave"; PStr "neal"]) eqn:E;
      run_M; [|by left].
    right. unfold recognized. simpl.
    destruct t; try (simpl in E; discriminate).
    apply (in_recognized_types float_of_str) in E.
    destruct E as [-> | ->]; auto.
  - left. unfold fmap, M_fmap. rewrite create_qubo_unfold.
    destruct (mbind _ _); [|done]. cbn zeta.
    by destruct (count_variables _).
  - left. unfold fmap, M_fmap. rewrite create_ising_unfold.
    destruct (mbind _ (py_items h)); [|done].
    by destruct (mbind _ (py_items J)).
  - left. unfold solve_problem. run_M.
    destruct (find_problem id (server w)) as [[p|]|e]; simpl; try done.
    by rewrite kwargs_no_num_reads.
  - by left.
Qed.

(** X14. On a server built by [main], without a configuration or with one
    made by [ServerConfig], the simulator type is "dwave" or "neal" after
    any run of calls: a type [set_simulator_config] rejects never reaches
    the configuration. *)
Theorem simulator_type_recognized (use : option pyval) (n : nat)
    (ops : list operation) :
  recognized
    (config
       (server
          (exec uuid4 float_of_str ops
             {| server := main (ServerConfig_init <$> use); drawn := n |}))).
Proof.
  assert (Hkeep : forall ops w,
    recognized (config (server w)) ->
    recognized (config (server (exec uuid4 float_of_str ops w)))).
  { clear. intros ops. induction ops as [|op ops IH]; intros w Hw; [done|].
    rewrite exec_cons. apply IH.
    destruct (perform_config op w) as [-> | H]; done. }
  apply Hkeep. destruct use; by left.
Qed.

End Lifetime.

Section Stored.

Variable uuid4 : nat -> string.
Variable float_of_str : string -> option Q.

(** ** Stored records are never modified *)

Lemma step_effect_ids_drawn w w' :
  step_effect uuid4 w w' -> ids_drawn uuid4 w -> ids_drawn uuid4 w'.
Proof.
  intros Hstep Hids id Hsome.
  destruct Hstep as [n Hn|u t|p|r id' Hr Hid]; simpl in *.
  - destruct (Hids id Hsome) as (k & Hk & ->). exists k. split; [lia|done].
  - by apply Hids.
  - destruct (decide (uuid4 (drawn w) = id)) as [<-|Hne].
    + exists (drawn w). split; [lia|done].
    + rewrite lookup_insert_ne in Hsome by done.
      destruct (Hids id Hsome) as (k & Hk & ->). exists k. split; [lia|done].
  - destruct (decide (uuid4 (drawn w) = id)) as [<-|Hne].
    + exists (drawn w). split; [lia|done].
    + rewrite lookup_insert_ne in Hsome by done.
      destruct (Hids id Hsome) as (k & Hk & ->). exists k. split; [lia|done].
Qed.

Lemma reachable_ids_drawn w :
  reachable uuid4 float_of_str w -> ids_drawn uuid4 w.
Proof.
  induction 1 as [config n|op w Hreach IH].
  - intros id. simpl. rewrite !lookup_empty.
    intros [[? ?]|[? ?]]; discriminate.
  - eapply step_effect_ids_drawn; [apply perform_effect | exact IH].
Qed.

Section FreshIds.

Hypothesis uuid4_fresh : forall m n, uuid4 m = uuid4 n -> m = n.

Lemma step_effect_keeps_records w w' id :
  step_effect uuid4 w w' -> ids_drawn uuid4 w ->
  (forall p, problems (server w) !! id = Some p ->
             problems (server w') !! id = Some p) /\
  (forall r, results (server w) !! id = Some r ->
             results (server w') !! id = Some r).
Proof.
  intros Hstep Hids.
  assert (Hne : is_Some (problems (server w) !! id) \/
                is_Some (results (server w) !! id) ->
                uuid4 (drawn w) <> id).
  { intros Hsome Heq. destruct (Hids id Hsome) as (k & Hk & ->).
    apply uuid4_fresh in Heq. lia. }
  destruct Hstep as [n Hn|u t|p|r id' Hr Hid]; simpl; try done.
  - split; [|done]. intros p' Hp'.
    rewrite lookup_insert_ne; [done|]. apply Hne. left. by eexists.
  - split; [done|]. intros r' Hr'.
    rewrite lookup_insert_ne; [done|]. apply Hne. right. by eexists.
Qed.

(** X15. With a generator that never repeats itself, what a reachable
    registry holds is never modified or replaced: a problem, or a result,
    stored under an identifier is still stored under it, unchanged, after
    any run of calls. *)
Theorem stored_records_unchanged (w : Process) (ops : list operation)
    (id : string) :
  reachable uuid4 float_of_str w ->
  (forall p, problems (server w) !! id = Some p ->
     problems (server (exec uuid4 float_of_str ops w)) !! id = Some p) /\
  (forall r, results (server w) !! id = Some r ->
     results (server (exec uuid4 float_of_str ops w)) !! id = Some r).
Proof.
  revert w. induction ops as [|op ops IH]; intros w Hreach; [done|].
  rewrite exec_cons.
  destruct (step_effect_keeps_records _ _ id
              (perform_effect uuid4 float_of_str op w)
              (reachable_ids_drawn _ Hreach)) as [Hp Hr].
  destruct (IH _ (reachable_step uuid4 float_of_str op w Hreach))
    as [Hp' Hr'].
  split; auto.
Qed.

End FreshIds.

(** ** The HTTP adapter *)

(** The keyword arguments change nothing, result or state. *)
Lemma solve_problem_keywords problem_id keywords w :
  solve_problem uuid4 problem_id keywords w
  = solve_problem uuid4 problem_id ∅ w.
Proof.
  unfold solve_problem. by rewrite !kwargs_no_num_reads.
Qed.

(** X16. The adapter's [solve_problem] tool and the dispatcher's do the
    same thing on the same state, whatever [num_reads] and
    [annealing_time] the adapter is given: the same result, stored under
    the same identifier, or a failure that leaves the state alone. The
    adapter lets the registry's error through; the dispatcher fails in its
    [except] clause, with that error as the context. *)
Theorem api_solve_problem_as_call_tool (problem_id : pyval)
    (num_reads annealing_time : option pyval)
    (arguments : gmap string pyval) (w : Process) :
  arguments !! "problem_id" = Some problem_id ->
  call_tool uuid4 float_of_str "solve_problem" arguments w
  = match api_solve_problem uuid4 problem_id num_reads annealing_time w with
    | (Return r, w') =>
        (Return [ {| content_type := "text"; text := OfSolve r |} ], w')
    | (Raise e, w') => (Raise (NoMessageWhile e), w')
    end.
Proof.
  intros Harg. unfold call_tool. rewrite try_wrap.
  change (String.eqb "solve_problem" "get_simulator_status") with false.
  change (String.eqb "solve_problem" "set_simulator_config") with false.
  change (String.eqb "solve_problem" "create_qubo") with false.
  change (String.eqb "solve_problem" "create_ising") with false.
  change (String.eqb "solve_problem" "solve_problem") with true.
  cbv iota. unfold missing, get_arg. rewrite Harg.
  rewrite bool_decide_eq_false_2 by done.
  unfold api_solve_problem, fmap, M_fmap. cbn [default from_option id].
  rewrite (solve_problem_keywords problem_id (<[_ := _]> _)).
  by destruct (solve_problem uuid4 problem_id ∅ w) as [[r|e] w'].
Qed.

End Stored.

Section Keys.

Variable uuid4 : nat -> string.
Variable float_of_str : string -> option Q.

(** ** What the key normalisation lets through *)

Lemma contains_lstrip p c s :
  p c = false -> contains c (lstrip p s) = contains c s.
Proof.
  intros Hc. induction s as [|a s IH]; [done|]. simpl.
  destruct (p a) eqn:Ea; [|done]. rewrite IH.
  destruct (Ascii.eqb a c) eqn:E; [|done].
  apply Ascii.eqb_eq in E. congruence.
Qed.

Lemma contains_rstrip p c s :
  p c = false -> contains c (rstrip p s) = contains c s.
Proof.
  intros Hc. induction s as [|a s IH]; [done|]. simpl.
  destruct (rstrip p s) as [|b t] eqn:Er.
  - simpl in IH. rewrite <- IH, orb_false_r.
    destruct (p a) eqn:Ea; simpl; [|by rewrite orb_false_r].
    destruct (Ascii.eqb a c) eqn:E; [|done].
    apply Ascii.eqb_eq in E. congruence.
  - cbn [contains]. by rewrite <- IH.
Qed.

Lemma contains_strip p c s :
  p c = false -> contains c (strip p s) = contains c s.
Proof.
  intros Hc. unfold strip. by rewrite contains_rstrip, contains_lstrip.
Qed.

Lemma split_cons c s : exists a rest, split c s = a :: rest.
Proof.
  induction s as [|x s (a & rest & IH)]; simpl; [by eauto|].
  destruct (Ascii.eqb x c); [by eauto|]. rewrite IH. eauto.
Qed.

(** A text that holds the separator splits in two parts at least. *)
Lemma split_two c s :
  contains c s = true -> exists a b rest, split c s = a :: b :: rest.
Proof.
  induction s as [|x s IH]; [done|]. simpl.
  destruct (Ascii.eqb x c); simpl.
  - intros _. destruct (split_cons c s) as (a & rest & ->). eauto.
  - intros H. destruct (IH H) as (a & b & rest & ->). eauto.
Qed.

Lemma unpack_ints_return parts i j :
  unpack_ints parts = Return (i, j) ->
  exists a b,
    parts = [a; b] /\ int_of_str a = Some i /\ int_of_str b = Some j.
Proof.
  destruct parts as [|a [|b [|c rest]]]; simpl; unfold py_int.
  - done.
  - by destruct (int_of_str a).
  - destruct (int_of_str a) as [x|] eqn:Ea; simpl; [|done].
    destruct (int_of_str b) as [y|] eqn:Eb; simpl; [|done].
    intros [= <- <-]. by exists a, b.
  - destruct (int_of_str a) as [x|]; simpl; [|done].
    destruct (int_of_str b) as [y|]; simpl; [|done].
    by destruct (int_of_str c).
Qed.

Lemma unpack_ints_raise a b rest e :
  unpack_ints (a :: b :: rest) = Raise e ->
  (e = TooManyValues /\ rest <> []) \/
  exists s, e = InvalidIntLiteral s /\ int_of_str s = None.
Proof.
  simpl. unfold py_int.
  destruct (int_of_str a) as [x|] eqn:Ea; simpl;
    [|intros [= <-]; right; by exists a].
  destruct (int_of_str b) as [y|] eqn:Eb; simpl;
    [|intros [= <-]; right; by exists b].
  destruct rest as [|c rest]; [done|].
  destruct (int_of_str c) as [z|] eqn:Ec; simpl;
    [intros [= <-]; by left | intros [= <-]; right; by exists c].
Qed.

(** X17. What [format_key] makes of a key. A key that is no text with a
    comma stays as it is. A text with a comma either becomes the pair of
    the two integers its two parts read as, the parentheses around the
    text dropped, or is refused: with three parts or more by the
    too-many-values error, unless a part is no integer literal, which is
    the other error. It is never refused for having too few parts. *)
Theorem format_key_outcomes (k : pyval) :
  match format_key k with
  | Return k' =>
      if comma_text k then
        exists s a b i j,
          k = PStr s /\ split "," (strip is_paren s) = [a; b] /\
          int_of_str a = Some i /\ int_of_str b = Some j /\
          k' = PTuple [PInt i; PInt j]
      else k' = k
  | Raise e =>
      comma_text k = true /\
      ((e = TooManyValues /\
        exists s, k = PStr s /\
                  (2 < length (split "," (strip is_paren s)))%nat) \/
       exists s, e = InvalidIntLiteral s /\ int_of_str s = None)
  end.
Proof.
  destruct k; try done. simpl.
  destruct (contains "," s) eqn:Hc; [|done].
  destruct (unpack_ints _) as [[i j]|e] eqn:E; simpl.
  - destruct (unpack_ints_return _ _ _ E) as (a & b & Hs & Ha & Hb).
    by exists s, a, b, i, j.
  - split; [done|].
    destruct (split_two "," (strip is_paren s)) as (a & b & rest & Hs).
    { by rewrite contains_strip. }
    rewrite Hs in E. destruct (unpack_ints_raise _ _ _ _ E) as [[-> Hr]|H].
    + left. split; [done|]. exists s. split; [done|]. rewrite Hs.
      destruct rest; [done|]. simpl. lia.
    + by right.
Qed.

Lemma elem_of_set_add k x l : k ∈ set_add x l -> k = x \/ k ∈ l.
Proof.
  induction l as [|y l IH]; simpl.
  - intros ->%list_elem_of_singleton. by left.
  - destruct (py_eqb y x); [by right|].
    intros [->|H]%elem_of_cons.
    + right. apply list_elem_of_here.
    + destruct (IH H) as [->|H']; [by left|].
      right. by apply list_elem_of_further.
Qed.

Lemma format_key_not_comma_text k k' :
  format_key k = Return k' -> comma_text k' = false.
Proof.
  destruct k; simpl; try (by intros [= <-]).
  destruct (contains "," s) eqn:Hc; [|by intros [= <-]; simpl].
  destruct (unpack_ints _) as [[i j]|e]; simpl; [|done].
  by intros [= <-].
Qed.

Lemma format_key_shape k k' :
  format_key k = Return k' ->
  (exists i j, k' = PTuple [PInt i; PInt j]) \/ k' = k.
Proof.
  destruct k; simpl; try (intros [= <-]; by right).
  destruct (contains "," s); [|intros [= <-]; by right].
  destruct (unpack_ints _) as [[i j]|e]; simpl; [|done].
  intros [= <-]. left. by exists i, j.
Qed.

Lemma format_pairs_keys_from items (formatted formatted' : pydict Q) :
  format_pairs float_of_str items formatted = Return formatted' ->
  forall k, k ∈ dict_keys formatted' ->
    k ∈ dict_keys formatted \/
    (hashable k = true /\ comma_text k = false /\
     ((exists i j, k = PTuple [PInt i; PInt j]) \/
      exists v, (k, v) ∈ items)).
Proof.
  revert formatted. induction items as [|[k0 v0] items IH]; intros formatted.
  - simpl. intros [= <-] k Hk. by left.
  - cbn [format_pairs].
    destruct (format_key k0) as [k'|e] eqn:Ek; cbn [mbind outcome_bind];
      [|done].
    destruct (py_float float_of_str v0) as [x|e]; cbn [mbind outcome_bind];
      [|done].
    unfold py_setitem, py_hash_check.
    destruct (hashable k') eqn:Hh; cbn [mbind outcome_bind]; [|done].
    intros Hfmt k Hk.
    destruct (IH _ Hfmt k Hk) as [Hin|(H1 & H2 & [H3|[v H3]])].
    + rewrite dict_keys_setitem in Hin.
      destruct (elem_of_set_add _ _ _ Hin) as [->|Hin']; [|by left].
      right. split; [done|].
      split; [by apply (format_key_not_comma_text k0)|].
      destruct (format_key_shape _ _ Ek) as [H| ->]; [by left|].
      right. exists v0. apply list_elem_of_here.
    + right. auto.
    + right. do 2 (split; [done|]). right. exists v.
      by apply list_elem_of_further.
Qed.

(** X18. The keys of a normalised coefficient map: every one has a hash,
    none is a text with a comma, and each is a pair of two integers or a
    key of the given map, kept as it was. *)
Theorem format_pairs_keys (items : list (pyval * pyval))
    (formatted : pydict Q) (k : pyval) :
  format_pairs float_of_str items [] = Return formatted ->
  k ∈ dict_keys formatted ->
  hashable k = true /\ comma_text k = false /\
  ((exists i j, k = PTuple [PInt i; PInt j]) \/ exists v, (k, v) ∈ items).
Proof.
  intros Hfmt Hk.
  destruct (format_pairs_keys_from _ _ _ Hfmt k Hk) as [Hin|H]; [|done].
  by apply elem_of_nil in Hin.
Qed.

(** ** Bounds on the number of variables *)

Lemma length_set_add x l : (length (set_add x l) <= S (length l))%nat.
Proof.
  induction l as [|y l IH]; simpl; [lia|].
  destruct (py_eqb y x); simpl; lia.
Qed.

Lemma length_py_set_from l acc :
  (length (fold_left (fun s x => set_add x s) l acc)
   <= length acc + length l)%nat.
Proof.
  revert acc. induction l as [|x l IH]; intros acc; simpl; [lia|].
  specialize (IH (set_add x acc)).
  pose proof (length_set_add x acc). lia.
Qed.

Lemma length_py_set l : (length (py_set l) <= length l)%nat.
Proof. apply (length_py_set_from l []). Qed.

Lemma length_dict_setitem {V} k (v : V) d :
  (length (dict_setitem k v d) <= S (length d))%nat.
Proof.
  induction d as [|[k' v'] d IH]; simpl; [lia|].
  destruct (py_eqb k' k); simpl; lia.
Qed.

Lemma length_format_pairs items (formatted formatted' : pydict Q) :
  format_pairs float_of_str items formatted = Return formatted' ->
  (length formatted' <= length formatted + length items)%nat.
Proof.
  revert formatted. induction items as [|[k v] items IH]; intros formatted.
  - simpl. intros [= <-]. lia.
  - cbn [format_pairs].
    destruct (format_key k) as [k'|e]; cbn [mbind outcome_bind]; [|done].
    destruct (py_float float_of_str v) as [x|e]; cbn [mbind outcome_bind];
      [|done].
    unfold py_setitem, py_hash_check.
    destruct (hashable k'); cbn [mbind outcome_bind]; [|done].
    intros Hfmt%IH. pose proof (length_dict_setitem k' x formatted).
    simpl. lia.
Qed.

Lemma length_format_h items (formatted formatted' : pydict Q) :
  format_h float_of_str items formatted = Return formatted' ->
  (length formatted' <= length formatted + length items)%nat.
Proof.
  revert formatted. induction items as [|[k v] items IH]; intros formatted.
  - simpl. intros [= <-]. lia.
  - cbn [format_h].
    destruct (match k with PStr s => _ | _ => _ end) as [k'|e];
      cbn [mbind outcome_bind]; [|done].
    destruct (py_float float_of_str v) as [x|e]; cbn [mbind outcome_bind];
      [|done].
    unfold py_setitem, py_hash_check.
    destruct (hashable k'); cbn [mbind outcome_bind]; [|done].
    intros Hfmt%IH. pose proof (length_dict_setitem k' x formatted).
    simpl. lia.
Qed.

Lemma length_mapM {A B} (f : A -> outcome B) (l : list A) (l' : list B) :
  mapM f l = Return l' -> length l' = length l.
Proof.
  revert l'. induction l as [|a l IH]; intros l'; cbn [mapM].
  - by intros [= <-].
  - destruct (f a) as [b|e]; cbn [mbind outcome_bind]; [|done].
    destruct (mapM f l) as [bs|e]; cbn [mbind outcome_bind]; [|done].
    intros [= <-]. simpl. by rewrite (IH bs).
Qed.

Lemma count_variables_bound (formatted : pydict Q) n :
  count_variables formatted = Return n ->
  0 <= n <= 2 * len formatted.
Proof.
  unfold count_variables.
  destruct (mapM (fun k => '(i, _) ← unpack2 k; Return i)
              (dict_keys formatted)) as [firsts|e1] eqn:E1;
    cbn [mbind outcome_bind]; [|done].
  destruct (mapM (fun k => '(_, j) ← unpack2 k; Return j) _)
    as [seconds|e2] eqn:E2; cbn [mbind outcome_bind]; [|done].
  intros [= <-]. apply length_mapM in E1, E2.
  unfold dict_keys in E1, E2. rewrite length_map in E1, E2.
  pose proof (length_py_set (firsts ++ seconds)) as H.
  rewrite length_app in H. unfold len. lia.
Qed.

(** X19. The number of variables [create_qubo] reports is at most twice
    the number of entries of the map it was given (and zero for the empty
    map). *)
Theorem create_qubo_num_variables_bound (Q about : pyval)
    (w w' : Process) (r : ProblemSummary) :
  create_qubo uuid4 float_of_str Q about w = (Return r, w') ->
  exists items, Q = PDict items /\ 0 <= num_variables r <= 2 * len items.
Proof.
  rewrite create_qubo_unfold.
  destruct (mbind _ _) as [fq|e] eqn:Efq; [|done]. cbn zeta.
  destruct (count_variables fq) as [n|e] eqn:En; [|done].
  intros [= <- <-]. simpl.
  destruct (bind_items_return _ _ _ Efq) as (items & -> & Hfq).
  exists items. split; [done|].
  apply count_variables_bound in En. apply length_format_pairs in Hfq.
  unfold len in *. simpl in Hfq. lia.
Qed.

(** X20. The number of variables [create_ising] reports is read off [h]
    alone: two calls with the same [h] that return report the same number,
    whatever [J] holds, and it is at most the number of entries of [h]. *)
Theorem create_ising_counts_h_only (h J J' about about' : pyval)
    (w w1 v v1 : Process) (r r' : ProblemSummary) :
  create_ising uuid4 float_of_str h J about w = (Return r, w1) ->
  create_ising uuid4 float_of_str h J' about' v = (Return r', v1) ->
  num_variables r = num_variables r' /\
  exists h_items, h = PDict h_items /\ 0 <= num_variables r <= len h_items.
Proof.
  rewrite !create_ising_unfold.
  destruct (mbind _ (py_items h)) as [fh|e] eqn:Efh; [|done].
  destruct (mbind _ (py_items J)) as [fJ|e]; [|done].
  destruct (mbind _ (py_items J')) as [fJ'|e]; [|done]. cbn zeta.
  intros [= <- <-] [= <- <-]. simpl. split; [done|].
  destruct (bind_items_return _ _ _ Efh) as (h_items & -> & Hfh).
  exists h_items. split; [done|].
  apply length_format_h in Hfh. unfold len. simpl in Hfh. lia.
Qed.

End Keys.

Section Errors.

Variable uuid4 : nat -> string.
Variable float_of_str : string -> option Q.

(** ** Which errors a tool can raise *)

Lemma unpack_ints_error parts e :
  unpack_ints parts = Raise e -> conversion_error e = true.
Proof.
  destruct parts as [|a [|b [|c rest]]]; simpl; unfold py_int;
    repeat (destruct (int_of_str _); simpl); by intros [= <-].
Qed.

Lemma format_key_error k e :
  format_key k = Raise e -> conversion_error e = true.
Proof.
  destruct k; simpl; try done.
  destruct (contains "," s); [|done].
  destruct (unpack_ints _) as [[i j]|e'] eqn:E; simpl; [done|].
  intros [= <-]. by apply unpack_ints_error in E.
Qed.

Lemma py_float_error v e :
  py_float float_of_str v = Raise e -> conversion_error e = true.
Proof.
  destruct v; simpl; try (by intros [= <-]).
  - destruct (int_overflows z); [|done]. by intros [= <-].
  - destruct (float_of_str s); [done|]. by intros [= <-].
Qed.

Lemma py_setitem_error {V} k (v : V) d e :
  py_setitem k v d = Raise e -> conversion_error e = true.
Proof.
  unfold py_setitem, py_hash_check.
  destruct (hashable k); simpl; [done|]. by intros [= <-].
Qed.

Lemma format_pairs_error items (formatted : pydict Q) e :
  format_pairs float_of_str items formatted = Raise e ->
  conversion_error e = true.
Proof.
  revert formatted. induction items as [|[k v] items IH]; intros formatted;
    [done|].
  cbn [format_pairs].
  destruct (format_key k) as [k'|e1] eqn:Ek; cbn [mbind outcome_bind];
    [|intros [= <-]; by apply format_key_error in Ek].
  destruct (py_float float_of_str v) as [x|e2] eqn:Ev;
    cbn [mbind outcome_bind];
    [|intros [= <-]; by apply py_float_error in Ev].
  destruct (py_setitem k' x formatted) as [f|e3] eqn:Es;
    cbn [mbind outcome_bind];
    [apply IH|intros [= <-]; by apply py_setitem_error in Es].
Qed.

Lemma format_h_error items (formatted : pydict Q) e :
  format_h float_of_str items formatted = Raise e ->
  conversion_error e = true.
Proof.
  revert formatted. induction items as [|[k v] items IH]; intros formatted;
    [done|].
  cbn [format_h].
  destruct (match k with PStr s => _ | _ => _ end) as [k'|e1] eqn:Ek;
    cbn [mbind outcome_bind].
  - destruct (py_float float_of_str v) as [x|e2] eqn:Ev;
      cbn [mbind outcome_bind];
      [|intros [= <-]; by apply py_float_error in Ev].
    destruct (py_setitem k' x formatted) as [f|e3] eqn:Es;
      cbn [mbind outcome_bind];
      [apply IH|intros [= <-]; by apply py_setitem_error in Es].
  - intros [= <-]. destruct k; try done.
    unfold py_int in Ek. destruct (int_of_str s); simpl in Ek; [done|].
    by injection Ek as <-.
Qed.

Lemma bind_items_error {A} (v : pyval)
    (k : list (pyval * pyval) -> outcome A) e :
  (forall items e, k items = Raise e -> conversion_error e = true) ->
  (items ← py_items v; k items) = Raise e -> conversion_error e = true.
Proof.
  intros Hk. destruct v; simpl; try (by intros [= <-]). apply Hk.
Qed.

Lemma create_qubo_error Q d w e w' :
  create_qubo uuid4 float_of_str Q d w = (Raise e, w') ->
  conversion_error e = true.
Proof.
  rewrite create_qubo_unfold.
  destruct (mbind _ _) as [fq|e1] eqn:E1.
  - cbn zeta. destruct (count_variables fq) as [n|e2] eqn:E2; [done|].
    intros [= <- _].
    by destruct (count_variables_error _ _ E2) as (k & _ & ->).
  - intros [= <- _]. revert E1. apply bind_items_error.
    intros items e0. apply format_pairs_error.
Qed.

Lemma create_ising_error h J d w e w' :
  create_ising uuid4 float_of_str h J d w = (Raise e, w') ->
  conversion_error e = true.
Proof.
  rewrite create_ising_unfold.
  destruct (mbind _ (py_items h)) as [fh|e1] eqn:E1.
  - destruct (mbind _ (py_items J)) as [fJ|e2] eqn:E2; [done|].
    intros [= <- _]. revert E2. apply bind_items_error.
    intros items e0. apply format_pairs_error.
  - intros [= <- _]. revert E1. apply bind_items_error.
    intros items e0. apply format_h_error.
Qed.

Lemma solve_problem_raise problem_id keywords w e w' :
  solve_problem uuid4 problem_id keywords w = (Raise e, w') ->
  w' = w /\ (e = ProblemNotFound problem_id \/ e = Unhashable problem_id).
Proof.
  unfold solve_problem. run_M.
  destruct (find_problem problem_id (server w)) as [[p|]|e0] eqn:E; simpl.
  - by rewrite kwargs_no_num_reads.
  - intros [= <- <-]. auto.
  - intros [= <- <-]. split; [done|]. right.
    destruct problem_id; simpl in E; try done;
      unfold py_hash_check in E; simpl in E;
      try (destruct (forallb hashable l)); simpl in E; congruence.
Qed.

Lemma fmap_raise {A B} (f : A -> B) (c : M A) w e w' :
  (f <$> c) w = (Raise e, w') -> c w = (Raise e, w').
Proof.
  unfold fmap, M_fmap. destruct (c w) as [[a|e0] w0]; [done|].
  by intros [= <- <-].
Qed.

Lemma value_tools name :
  String.eqb name "get_simulator_status" = false ->
  String.eqb name "set_simulator_config" = false ->
  String.eqb name "create_qubo" = false ->
  String.eqb name "create_ising" = false ->
  String.eqb name "solve_problem" = false ->
  String.eqb name "get_annealing_time_status" = false ->
  forall tool, name <> value tool.
Proof.
  intros H1 H2 H3 H4 H5 H6 tool. apply String.eqb_neq.
  by destruct tool.
Qed.

(** X2. Whatever the name and the arguments, what [call_tool] returns is
    one text item, with a result of the kind of the tool named: a status
    for [get_simulator_status], an update marked as such for
    [set_simulator_config], a summary of type "qubo" for [create_qubo] and
    of type "ising" for [create_ising], a COMPLETED result for
    [solve_problem], the annealing times for [get_annealing_time_status].
    And whatever it raises is the [AttributeError] of the [except] clause,
    with the exception caught as its context: no error of a registry
    method leaves the dispatcher as it was raised, and no [McpError]
    leaves it at all. *)
Theorem call_tool_envelope (name : string) (arguments : gmap string pyval)
    (w : Process) :
  match fst (call_tool uuid4 float_of_str name arguments w) with
  | Return content =>
      exists result,
        content = [ {| content_type := "text"; text := result |} ] /\
        result_of name result
  | Raise e =>
      class_of e = AttributeError /\ exists context, e = NoMessageWhile context
  end.
Proof.
  unfold call_tool. rewrite try_wrap.
  destruct (String.eqb name "get_simulator_status") eqn:N1.
  { apply String.eqb_eq in N1 as ->. simpl. by eexists. }
  destruct (String.eqb name "set_simulator_config") eqn:N2.
  { apply String.eqb_eq in N2 as ->.
    unfold fmap, M_fmap, set_simulator_config.
    destruct (negb _); run_M; simpl; [by eauto|]. by eexists. }
  destruct (String.eqb name "create_qubo") eqn:N3.
  { apply String.eqb_eq in N3 as ->.
    destruct (missing "Q" arguments); [simpl; by eauto|].
    unfold fmap, M_fmap. rewrite create_qubo_unfold.
    destruct (mbind _ _) as [fq|e]; [|simpl; by eauto]. cbn zeta.
    destruct (count_variables fq) as [n|e]; simpl; [|by eauto].
    eexists. split; [done|]. simpl. auto. }
  destruct (String.eqb name "create_ising") eqn:N4.
  { apply String.eqb_eq in N4 as ->.
    destruct (missing "h" arguments || missing "J" arguments);
      [simpl; by eauto|].
    unfold fmap, M_fmap. rewrite create_ising_unfold.
    destruct (mbind _ (py_items _)) as [fh|e]; [|simpl; by eauto].
    destruct (mbind _ (py_items _)) as [fJ|e]; [|simpl; by eauto].
    simpl. eexists. split; [done|]. simpl. auto. }
  destruct (String.eqb name "solve_problem") eqn:N5.
  { apply String.eqb_eq in N5 as ->.
    destruct (missing "problem_id" arguments); [simpl; by eauto|].
    unfold fmap, M_fmap.
    destruct (solve_problem uuid4 _ ∅ w) as [[r|e] w'] eqn:Hs;
      simpl; [|by eauto].
    eexists. split; [done|]. simpl. split; [done|].
    unfold solve_problem in Hs. revert Hs. run_M.
    destruct (find_problem _ (server w)) as [[p|]|e]; simpl; try done.
    rewrite kwargs_no_num_reads. simpl. by intros [= <- _]. }
  destruct (String.eqb name "get_annealing_time_status") eqn:N6.
  { apply String.eqb_eq in N6 as ->. simpl. by eexists. }
  simpl. by eauto.
Qed.

(** X21. Every failure of [call_tool] is the [AttributeError] of the
    [except] clause, and its context, the exception caught, tells where it
    came from. The [AttributeError] of an attempt to build an [McpError]
    inside the [try] is caught for a name that is none of the six, with
    the unknown-tool text, or for a required argument that is absent. The
    invalid-type error comes from [set_simulator_config], about the type
    read from the arguments, and the not-found error from [solve_problem],
    about the value given. These leave the state untouched. Everything
    else is an error of the interpreter converting a coefficient map
    ([items], [int], [float] with its overflow, unpacking, hashing), in
    one of the two creations, or hashing the identifier in
    [solve_problem]. The two status tools raise nothing. *)
Theorem call_tool_error_causes (name : string)
    (arguments : gmap string pyval) (w w' : Process) (e : exn) :
  call_tool uuid4 float_of_str name arguments w = (Raise e, w') ->
  exists context,
    e = NoMessageWhile context /\
    class_of e = AttributeError /\
    match context with
    | NoMessage text =>
        w' = w /\
        ((text = "Unknown tool: " +:+ name /\
          forall tool, name <> value tool) \/
         exists key, key ∈ required_arguments name /\
                     arguments !! key = None)
    | InvalidSimulatorType t =>
        name = "set_simulator_config" /\
        t = get_arg "simulator_type" (PStr "dwave") arguments /\ w' = w
    | ProblemNotFound id =>
        name = "solve_problem" /\
        arguments !! "problem_id" = Some id /\ w' = w
    | Unhashable _ =>
        name = "create_qubo" \/ name = "create_ising" \/
        (name = "solve_problem" /\ w' = w)
    | NoItems _ | InvalidIntLiteral _ | NotAFloat _ | FloatOverflow _
    | CannotUnpack _ | TooManyValues =>
        name = "create_qubo" \/ name = "create_ising"
    | BadOperand _ | NoMessageWhile _ => False
    end.
Proof.
  unfold call_tool. rewrite try_wrap.
  destruct (String.eqb name "get_simulator_status") eqn:N1; [done|].
  destruct (String.eqb name "set_simulator_config") eqn:N2.
  { apply String.eqb_eq in N2 as ->.
    unfold fmap, M_fmap, set_simulator_config.
    destruct (negb _); run_M; [|done].
    intros [= <- <-]. by eexists. }
  destruct (String.eqb name "create_qubo") eqn:N3.
  { apply String.eqb_eq in N3 as ->.
    destruct (missing "Q" arguments) eqn:Hm.
    - intros [= <- <-]. eexists. do 2 (split; [done|]). split; [done|].
      right. exists "Q". split; [apply list_elem_of_here|].
      by apply bool_decide_eq_true in Hm.
    - destruct ((OfCreate <$> create_qubo _ _ _ _) w) as [[r|e0] w0] eqn:E;
        [done|].
      intros [= <- <-]. exists e0. do 2 (split; [done|]).
      apply fmap_raise, create_qubo_error in E.
      destruct e0; try done; auto. }
  destruct (String.eqb name "create_ising") eqn:N4.
  { apply String.eqb_eq in N4 as ->.
    destruct (missing "h" arguments || missing "J" arguments) eqn:Hm.
    - intros [= <- <-]. eexists. do 2 (split; [done|]). split; [done|].
      right.
      apply orb_true_iff in Hm as [Hm|Hm]; apply bool_decide_eq_true in Hm.
      + exists "h". split; [apply list_elem_of_here|done].
      + exists "J". split; [|done].
        apply list_elem_of_further, list_elem_of_here.
    - destruct ((OfCreate <$> create_ising _ _ _ _ _) w)
        as [[r|e0] w0] eqn:E; [done|].
      intros [= <- <-]. exists e0. do 2 (split; [done|]).
      apply fmap_raise, create_ising_error in E.
      destruct e0; try done; auto. }
  destruct (String.eqb name "solve_problem") eqn:N5.
  { apply String.eqb_eq in N5 as ->.
    destruct (missing "problem_id" arguments) eqn:Hm.
    - intros [= <- <-]. eexists. do 2 (split; [done|]). split; [done|].
      right. exists "problem_id". split; [apply list_elem_of_here|].
      by apply bool_decide_eq_true in Hm.
    - apply bool_decide_eq_false in Hm.
      destruct (arguments !! "problem_id") as [pid|] eqn:Hid; [|done].
      unfold get_arg. rewrite Hid. cbn [default from_option id].
      unfold fmap, M_fmap.
      destruct (solve_problem uuid4 pid ∅ w) as [[r|e0] w0] eqn:Hs; [done|].
      destruct (solve_problem_raise _ _ _ _ _ Hs) as [-> [-> | ->]];
        intros [= <- <-]; eexists; do 2 (split; [done|]); simpl; auto 10. }
  destruct (String.eqb name "get_annealing_time_status") eqn:N6; [done|].
  intros [= <- <-]. eexists. do 2 (split; [done|]).
  split; [done|]. left. split; [done|]. by apply value_tools.
Qed.

(** ** The status tools *)

(** X22. The two status tools never raise and leave the state as it is.
    What they return depends on the configuration alone: not on the
    arguments, nor on the problems and results stored, nor on the
    identifiers drawn. *)
Theorem call_tool_status_reads_config (name : string)
    (arguments arguments' : gmap string pyval) (w v : Process) :
  name = "get_simulator_status" \/ name = "get_annealing_time_status" ->
  (exists result,
     call_tool uuid4 float_of_str name arguments w
     = (Return [ {| content_type := "text"; text := result |} ], w)) /\
  (config (server w) = config (server v) ->
   fst (call_tool uuid4 float_of_str name arguments w)
   = fst (call_tool uuid4 float_of_str name arguments' v)).
Proof.
  intros [-> | ->]; unfold call_tool; rewrite !try_wrap; simpl.
  - split; [by eexists|]. by intros ->.
  - split; [by eexists|done].
Qed.

(** ** The adapter's create_qubo *)

(** X23. The adapter's [create_qubo] tool and the dispatcher's agree on
    the same state and the same [Q]: both fail, the adapter with the
    registry's error and the dispatcher in its [except] clause with that
    error as the context, or both return, the same identifier, type and
    number of variables, and store the same coefficients under the
    identifier. They differ in the description when none is given: the
    adapter's is "QUBO problem", the dispatcher's is empty. *)
Theorem api_create_qubo_as_call_tool (Q : pyval) (about : option pyval)
    (arguments : gmap string pyval) (w : Process) :
  arguments !! "Q" = Some Q ->
  arguments !! "description" = about ->
  match api_create_qubo uuid4 float_of_str Q about w,
        call_tool uuid4 float_of_str "create_qubo" arguments w with
  | (Return r, w1), (Return content, w2) =>
      exists r' formatted_Q,
        content = [ {| content_type := "text"; text := OfCreate r' |} ] /\
        created_problem_id r' = created_problem_id r /\
        type r' = type r /\
        num_variables r' = num_variables r /\
        description r = default (PStr "QUBO problem") about /\
        description r' = default (PStr "") about /\
        problems (server w1) !! created_problem_id r
        = Some (QuboProblem (created_problem_id r) formatted_Q
                  (description r)) /\
        problems (server w2) !! created_problem_id r
        = Some (QuboProblem (created_problem_id r) formatted_Q
                  (description r'))
  | (Raise e, _), (Raise e', _) => e' = NoMessageWhile e
  | _, _ => False
  end.
Proof.
  intros HQ Hd. unfold call_tool. rewrite try_wrap.
  change (String.eqb "create_qubo" "get_simulator_status") with false.
  change (String.eqb "create_qubo" "set_simulator_config") with false.
  change (String.eqb "create_qubo" "create_qubo") with true.
  cbv iota. unfold missing, get_arg. rewrite HQ, Hd.
  rewrite bool_decide_eq_false_2 by done.
  cbn [default from_option id].
  unfold api_create_qubo, fmap, M_fmap. rewrite !create_qubo_unfold.
  destruct (mbind _ _) as [fq|e]; [|done]. cbn zeta.
  destruct (count_variables fq) as [n|e]; [|done].
  eexists _, fq. simpl. repeat split; try done; apply lookup_insert_eq.
Qed.

End Errors.

(** * The properties on concrete runs *)

(** The runs below use [sample_uuid4] and [sample_float_of_str]; the values
    they pass are numbers, so the literal parser plays no part in them. *)

Lemma sample_uuid4_fresh m n : sample_uuid4 m = sample_uuid4 n -> m = n.
Proof.
  unfold sample_uuid4. intros H. injection H as H.
  by apply (inj pretty).
Qed.



(** C2: the QUBO of the specification has two variables. *)
Lemma create_qubo_num_variables_witness :
  exists r,
    fst (create_qubo sample_uuid4 sample_float_of_str sample_Q (PStr "")
           (start None)) = Return r /\
    num_variables r = 2.
Proof.
  destruct (create_qubo_num_variables sample_uuid4 sample_float_of_str
              [(PStr "0,0", PInt (-1)); (PStr "1,1", PInt (-1));
               (PStr "0,1", PInt 2)]
              [(0, 0); (1, 1); (0, 1)] (PStr "") (start None))
    as (r & Hr & Hn).
  - repeat constructor.
    + apply (pair_key_text 0 0).
    + by eexists.
    + apply (pair_key_text 1 1).
    + by eexists.
    + apply (pair_key_text 0 1).
    + by eexists.
  - exists r. split; [exact Hr|]. rewrite Hn. reflexivity.
Defined.

(** C3: [h = {"1": 1.0, "01": -1.0}] has two entries, both keys read as the
    integer 1, and [create_ising] answers [num_variables = 1]. *)
Lemma create_ising_merges_keys :
  Forall2 (valid_bias sample_float_of_str)
    [(PStr "1", PFloat 1); (PStr "01", PFloat (-1))] [1; 1] /\
  len [(PStr "1", PFloat 1); (PStr "01", PFloat (-1))] = 2 /\
  fst (create_ising sample_uuid4 sample_float_of_str
         (PDict [(PStr "1", PFloat 1); (PStr "01", PFloat (-1))])
         sample_J (PStr "") (start None))
  = Return {| created_problem_id := "uuid-0"; type := "ising";
              description := PStr ""; num_variables := 1 |}.
Proof.
  split; [|split; reflexivity].
  repeat constructor; try (by eexists); by apply int_key_text.
Qed.

(** C3: the Ising model of the specification has two variables. *)
Lemma create_ising_num_variables_witness :
  exists r,
    fst (create_ising sample_uuid4 sample_float_of_str sample_h sample_J
           (PStr "") (start None)) = Return r /\
    num_variables r = 2.
Proof.
  destruct (create_ising_num_variables sample_uuid4 sample_float_of_str
              [(PStr "0", PFloat 1); (PStr "1", PFloat (-1))]
              [(PStr "(0,1)", PFloat (-1))]
              [0; 1] [(0, 1)] (PStr "") (start None))
    as (r & Hr & _ & Hn).
  - repeat constructor; try (by eexists); by apply int_key_text.
  - repeat constructor; [apply (pair_key_paren 0 1) | by eexists].
  - exists r. split; [exact Hr|]. apply Hn.
    repeat constructor; rewrite ?elem_of_cons, ?elem_of_nil; intuition lia.
Defined.

(** C4: a list is no key of the problem map, and [solve_problem] on it
    fails, but not with the not-found error: the membership test raises a
    [TypeError]. *)
Lemma solve_problem_of_a_list :
  solve_problem sample_uuid4 (PList [PStr "uuid-0"]) ∅ after_create
  = (Raise (Unhashable (PList [PStr "uuid-0"])), after_create) /\
  class_of (Unhashable (PList [PStr "uuid-0"])) = TypeError /\
  class_of (ProblemNotFound (PList [PStr "uuid-0"])) = ValueError /\
  Unhashable (PList [PStr "uuid-0"])
  <> ProblemNotFound (PList [PStr "uuid-0"]).
Proof. repeat split; try reflexivity. discriminate. Qed.

(** C4: the identifier of the stored problem is solved, another is not
    found, and nor is a number. *)
Lemma solve_problem_found_or_not_witness :
  (exists r,
     fst (solve_problem sample_uuid4 (PStr "uuid-0") ∅ after_create)
     = Return r /\
     result_problem_id r = PStr "uuid-0" /\ status r = "COMPLETED") /\
  snd (solve_problem sample_uuid4 (PStr "uuid-7") ∅ after_create)
  = after_create /\
  fst (solve_problem sample_uuid4 (PInt 0) ∅ after_create)
  = Raise (ProblemNotFound (PInt 0)).
Proof.
  split; [|split].
  - apply (proj2 (proj2 (proj2 (solve_problem_found_or_not sample_uuid4
                                  (PStr "uuid-0") ∅ after_create)))).
    exists "uuid-0". split; [reflexivity|by eexists].
  - apply (proj1 (proj2 (proj2 (solve_problem_found_or_not sample_uuid4
                                  (PStr "uuid-7") ∅ after_create)))).
    intros (id & [= <-] & [p Hp]). discriminate.
  - apply (proj1 (proj1 (solve_problem_found_or_not sample_uuid4
                           (PInt 0) ∅ after_create) eq_refl)).
    intros (id & [=] & _).
Defined.

(** C5: 10000 reads of 5 microseconds against the defaults, the second
    call in a process whose generator stands elsewhere. *)
Lemma solve_problem_ignores_reads_witness :
  exists r1 r2,
    fst (solve_problem sample_uuid4 (PStr "uuid-0")
           (<["num_reads" := PInt 10000]>
              (<["annealing_time" := PInt 5]> ∅)) after_create)
    = Return r1 /\
    fst (solve_problem sample_uuid4 (PStr "uuid-0") ∅
           {| server := server after_create; drawn := 7 |})
    = Return r2 /\
    result_problem_id r1 = result_problem_id r2 /\
    energy r1 = energy r2 /\
    solution r1 = solution r2 /\
    qpu_access_time r1 = qpu_access_time r2 /\
    execution_time r1 = execution_time r2 /\
    total_annealing_time r1 = total_annealing_time r2 /\
    status r1 = status r2.
Proof.
  apply (solve_problem_ignores_reads sample_uuid4 "uuid-0").
  - reflexivity.
  - by eexists.
Defined.

(** C8: the state after creating [sample_Q], solving it, and a failed
    attempt at an unknown identifier. *)
Lemma reachable_results_reference_problems_witness :
  results (server (exec sample_uuid4 sample_float_of_str
                     [CreateQubo sample_Q (PStr "");
                      SolveProblem (PStr "uuid-0") ∅;
                      SolveProblem (PStr "nowhere") ∅]
                     (start None))) !! "uuid-1" <> None /\
  results_reference_problems
    (server (exec sample_uuid4 sample_float_of_str
               [CreateQubo sample_Q (PStr "");
                SolveProblem (PStr "uuid-0") ∅;
                SolveProblem (PStr "nowhere") ∅]
               (start None))).
Proof.
  split; [discriminate|].
  apply (reachable_results_reference_problems sample_uuid4
           sample_float_of_str).
  unfold exec. cbn [fold_left].
  do 3 apply reachable_step. apply reachable_init.
Defined.

(** C9: [sample_Q] created twice, with a solve in between. *)
Lemma created_ids_distinct_witness :
  "uuid-0" <> "uuid-2" /\
  is_Some (problems (server after_create) !! "uuid-0") /\
  problems (server (exec sample_uuid4 sample_float_of_str
                      [CreateQubo sample_Q (PStr "");
                       SolveProblem (PStr "uuid-0") ∅;
                       CreateQubo sample_Q (PStr "")]
                      (start None))) !! "uuid-0"
  = problems (server after_create) !! "uuid-0".
Proof.
  apply (created_ids_distinct sample_uuid4 sample_float_of_str
           sample_uuid4_fresh (start None) after_create
           (exec sample_uuid4 sample_float_of_str
              [CreateQubo sample_Q (PStr "");
               SolveProblem (PStr "uuid-0") ∅;
               CreateQubo sample_Q (PStr "")] (start None))
           (CreateQubo sample_Q (PStr "")) (CreateQubo sample_Q (PStr ""))
           [SolveProblem (PStr "uuid-0") ∅]
           {| created_problem_id := "uuid-0"; type := "qubo";
              description := PStr ""; num_variables := 2 |}
           {| created_problem_id := "uuid-2"; type := "qubo";
              description := PStr ""; num_variables := 2 |}).
  - reflexivity.
  - reflexivity.
Defined.

(** C10: the key ["ab"] has no comma and is no pair, and the call returns
    (two variables, ["a"] and ["b"]); with the keys ["a,b"] and [5] the call
    raises in the normalising loop and the registry holds no record. *)
Lemma create_qubo_odd_keys :
  fst (create_qubo sample_uuid4 sample_float_of_str
         (PDict [(PStr "ab", PFloat 1)]) (PStr "") (start None))
  = Return {| created_problem_id := "uuid-0"; type := "qubo";
              description := PStr ""; num_variables := 2 |} /\
  create_qubo sample_uuid4 sample_float_of_str
    (PDict [(PStr "a,b", PFloat 1); (PInt 5, PFloat 1)]) (PStr "")
    (start None)
  = (Raise (InvalidIntLiteral "a"),
     {| server := DWaveServer_init None; drawn := 1 |}).
Proof. split; reflexivity. Qed.

(** C10: the bare integer key of the claim. *)
Lemma create_qubo_stores_before_counting_witness :
  exists k formatted_Q,
    create_qubo sample_uuid4 sample_float_of_str
      (PDict [(PInt 5, PFloat 1)]) (PStr "") (start None)
    = (Raise (CannotUnpack k),
       {| server :=
            store_problem "uuid-0"
              (QuboProblem "uuid-0" formatted_Q (PStr ""))
              (DWaveServer_init None);
          drawn := 1 |}) /\
    problems (server (snd (create_qubo sample_uuid4 sample_float_of_str
                             (PDict [(PInt 5, PFloat 1)]) (PStr "")
                             (start None)))) !! "uuid-0"
    = Some (QuboProblem "uuid-0" formatted_Q (PStr "")).
Proof.
  apply (create_qubo_stores_before_counting sample_uuid4 sample_float_of_str
           [(PInt 5, PFloat 1)] (PStr "") (start None)).
  - repeat constructor; by eexists.
  - by repeat constructor.
Defined.

(** ** Further runs *)

(** X1: [get_result], a tool the adapter's notes mention, is none of the
    six. *)
Lemma call_tool_unknown_witness :
  call_tool sample_uuid4 sample_float_of_str "get_result" ∅ after_create
  = (Raise (NoMessageWhile (NoMessage "Unknown tool: get_result")),
     after_create) /\
  class_of (NoMessageWhile (NoMessage "Unknown tool: get_result"))
  = AttributeError.
Proof.
  apply (call_tool_unknown sample_uuid4 sample_float_of_str "get_result" ∅
           after_create).
  by intros [].
Defined.

(** X3: solving the stored problem through the dispatcher. *)
Lemma call_tool_keeps_references_witness :
  is_Some
    (results
       (server
          (snd (call_tool sample_uuid4 sample_float_of_str "solve_problem"
                  (<["problem_id" := PStr "uuid-0"]> ∅) after_create)))
     !! "uuid-1") /\
  results_reference_problems
    (server
       (snd (call_tool sample_uuid4 sample_float_of_str "solve_problem"
               (<["problem_id" := PStr "uuid-0"]> ∅) after_create))).
Proof.
  split; [by eexists|].
  apply (call_tool_keeps_references sample_uuid4 sample_float_of_str
           "solve_problem" (<["problem_id" := PStr "uuid-0"]> ∅)
           after_create).
  intros id r H.
  change (results (server after_create)) with (∅ : gmap string Result) in H.
  by rewrite lookup_empty in H.
Defined.

(** X4: with and without [num_reads] and [annealing_time]. *)
Lemma call_tool_solve_reads_problem_id_witness :
  call_tool sample_uuid4 sample_float_of_str "solve_problem"
    (<["num_reads" := PInt 5]>
       (<["annealing_time" := PInt 7]>
          (<["problem_id" := PStr "uuid-0"]> ∅))) after_create
  = call_tool sample_uuid4 sample_float_of_str "solve_problem"
      (<["problem_id" := PStr "uuid-0"]> ∅) after_create.
Proof.
  apply (call_tool_solve_reads_problem_id sample_uuid4 sample_float_of_str).
  reflexivity.
Defined.

(** X5: what creating [sample_Q] stores. *)
Lemma create_qubo_returns_stored_witness :
  exists formatted_Q,
    format_pairs sample_float_of_str
      [(PStr "0,0", PInt (-1)); (PStr "1,1", PInt (-1));
       (PStr "0,1", PInt 2)] [] = Return formatted_Q /\
    problems (server after_create) !! "uuid-0"
    = Some (QuboProblem "uuid-0" formatted_Q (PStr "")).
Proof.
  destruct (create_qubo_returns_stored sample_uuid4 sample_float_of_str
              sample_Q (PStr "") (start None) after_create
              {| created_problem_id := "uuid-0"; type := "qubo";
                 description := PStr ""; num_variables := 2 |} eq_refl)
    as (_ & _ & _ & (items & formatted_Q & [= <-] & Hfmt & Hp) & _).
  by exists formatted_Q.
Defined.

(** X6: what creating the Ising model of the specification stores. *)
Lemma create_ising_returns_stored_witness :
  exists formatted_h formatted_J,
    problems
      (server (snd (create_ising sample_uuid4 sample_float_of_str sample_h
                      sample_J (PStr "") (start None)))) !! "uuid-0"
    = Some (IsingProblem "uuid-0" formatted_h formatted_J (PStr "")) /\
    len formatted_h = 2.
Proof.
  destruct (create_ising_returns_stored sample_uuid4 sample_float_of_str
              sample_h sample_J (PStr "") (start None)
              (snd (create_ising sample_uuid4 sample_float_of_str sample_h
                      sample_J (PStr "") (start None)))
              {| created_problem_id := "uuid-0"; type := "ising";
                 description := PStr ""; num_variables := 2 |} eq_refl)
    as (_ & _ & _ & (hi & Ji & fh & fJ & _ & _ & _ & _ & Hn & Hp) & _).
  exists fh, fJ. split; [exact Hp | by rewrite <- Hn].
Defined.

(** X7: an [h] whose key is no integer. *)
Lemma create_ising_raise_leaves_registry_witness :
  fst (create_ising sample_uuid4 sample_float_of_str
         (PDict [(PStr "x", PFloat 1)]) sample_J (PStr "") after_create)
  = Raise (InvalidIntLiteral "x") /\
  server (snd (create_ising sample_uuid4 sample_float_of_str
                 (PDict [(PStr "x", PFloat 1)]) sample_J (PStr "")
                 after_create))
  = server after_create /\
  drawn (snd (create_ising sample_uuid4 sample_float_of_str
                (PDict [(PStr "x", PFloat 1)]) sample_J (PStr "")
                after_create))
  = S (drawn after_create).
Proof.
  split; [reflexivity|].
  apply (create_ising_raise_leaves_registry sample_uuid4 sample_float_of_str
           (PDict [(PStr "x", PFloat 1)]) sample_J (PStr "") after_create _
           (InvalidIntLiteral "x")).
  reflexivity.
Defined.

(** X8: a value that is no number raises and stores nothing. *)
Lemma create_qubo_raise_cases_witness :
  fst (create_qubo sample_uuid4 sample_float_of_str
         (PDict [(PStr "0,1", PNone)]) (PStr "") after_create)
  = Raise (NotAFloat PNone) /\
  server (snd (create_qubo sample_uuid4 sample_float_of_str
                 (PDict [(PStr "0,1", PNone)]) (PStr "") after_create))
  = server after_create.
Proof.
  split; [reflexivity|].
  destruct (create_qubo_raise_cases sample_uuid4 sample_float_of_str
              (PDict [(PStr "0,1", PNone)]) (PStr "") after_create
              (snd (create_qubo sample_uuid4 sample_float_of_str
                      (PDict [(PStr "0,1", PNone)]) (PStr "") after_create))
              (NotAFloat PNone) eq_refl)
    as [_ [H|(k & fq & [=] & _)]].
  exact H.
Defined.

(** X11: [sample_Q] is solved a second time. *)
Lemma created_problem_solves_witness :
  exists res,
    fst (solve_problem sample_uuid4 (PStr "uuid-0") ∅
           (exec sample_uuid4 sample_float_of_str
              [SolveProblem (PStr "uuid-0") ∅] after_create))
    = Return res /\
    result_problem_id res = PStr "uuid-0" /\
    status res = "COMPLETED".
Proof.
  apply (created_problem_solves sample_uuid4 sample_float_of_str
           (CreateQubo sample_Q (PStr "")) (start None) after_create
           {| created_problem_id := "uuid-0"; type := "qubo";
              description := PStr ""; num_variables := 2 |}
           [SolveProblem (PStr "uuid-0") ∅] ∅).
  reflexivity.
Defined.

(** X12: [create_qubo] with [sample_Q] through the dispatcher, then
    [solve_problem] with the identifier returned. *)
Lemma call_tool_create_then_solve_witness :
  exists r res w2,
    call_tool sample_uuid4 sample_float_of_str "create_qubo"
      (<["Q" := sample_Q]> ∅) (start None)
    = (Return [ {| content_type := "text"; text := OfCreate r |} ],
       after_create) /\
    call_tool sample_uuid4 sample_float_of_str "solve_problem"
      (<["problem_id" := PStr (created_problem_id r)]> ∅) after_create
    = (Return [ {| content_type := "text"; text := OfSolve res |} ], w2) /\
    status res = "COMPLETED".
Proof.
  assert (Hcreate :
    call_tool sample_uuid4 sample_float_of_str "create_qubo"
      (<["Q" := sample_Q]> ∅) (start None)
    = (Return [ {| content_type := "text";
                   text := OfCreate
                     {| created_problem_id := "uuid-0"; type := "qubo";
                        description := PStr ""; num_variables := 2 |} |} ],
       after_create)) by reflexivity.
  destruct (call_tool_create_then_solve sample_uuid4 sample_float_of_str
              (<["Q" := sample_Q]> ∅) ∅ (start None) after_create _ Hcreate)
    as (r & [= <-] & res & w2 & Hsolve & _ & Hstatus).
  eexists _, res, w2. split; [reflexivity|]. by split.
Defined.

(** X13: the solution fabricated for [sample_Q]. *)
Lemma solve_problem_pattern_witness :
  exists r,
    fst (solve_problem sample_uuid4 (PStr "uuid-0") ∅ after_create)
    = Return r /\
    solution r = qubo_pattern /\
    energy r = (-1.5)%Q.
Proof.
  edestruct (solve_problem_pattern sample_uuid4 "uuid-0" ∅ after_create)
    as (r & Hr & Hs & He); [reflexivity|].
  exists r. by repeat split.
Defined.

(** X15: [sample_Q] after a further creation and a solve. *)
Lemma stored_records_unchanged_witness :
  exists p,
    problems (server after_create) !! "uuid-0" = Some p /\
    problems
      (server (exec sample_uuid4 sample_float_of_str
                 [CreateQubo sample_Q (PStr "again");
                  SolveProblem (PStr "uuid-0") ∅] after_create)) !! "uuid-0"
    = Some p.
Proof.
  eexists. split; [reflexivity|].
  apply (stored_records_unchanged sample_uuid4 sample_float_of_str
           sample_uuid4_fresh after_create
           [CreateQubo sample_Q (PStr "again");
            SolveProblem (PStr "uuid-0") ∅] "uuid-0").
  - apply (reachable_step sample_uuid4 sample_float_of_str
             (CreateQubo sample_Q (PStr "")) (start None)).
    apply reachable_init.
  - reflexivity.
Defined.

(** X16: the adapter called with 500 reads. *)
Lemma api_solve_problem_as_call_tool_witness :
  exists r w',
    api_solve_problem sample_uuid4 (PStr "uuid-0") (Some (PInt 500)) None
      after_create = (Return r, w') /\
    call_tool sample_uuid4 sample_float_of_str "solve_problem"
      (<["problem_id" := PStr "uuid-0"]> ∅) after_create
    = (Return [ {| content_type := "text"; text := OfSolve r |} ], w').
Proof.
  pose proof (api_solve_problem_as_call_tool sample_uuid4 sample_float_of_str
                (PStr "uuid-0") (Some (PInt 500)) None
                (<["problem_id" := PStr "uuid-0"]> ∅) after_create eq_refl)
    as H.
  destruct (api_solve_problem sample_uuid4 (PStr "uuid-0") (Some (PInt 500))
              None after_create) as [[r|e] w'] eqn:E.
  - by exists r, w'.
  - vm_compute in E. discriminate.
Defined.

(** X18: the keys stored for [sample_Q]. *)
Lemma format_pairs_keys_witness :
  format_pairs sample_float_of_str
    [(PStr "0,0", PInt (-1)); (PStr "1,1", PInt (-1)); (PStr "0,1", PInt 2)]
    []
  = Return [(PTuple [PInt 0; PInt 0], inject_Z (-1));
            (PTuple [PInt 1; PInt 1], inject_Z (-1));
            (PTuple [PInt 0; PInt 1], inject_Z 2)] /\
  hashable (PTuple [PInt 0; PInt 1]) = true /\
  comma_text (PTuple [PInt 0; PInt 1]) = false /\
  ((exists i j, PTuple [PInt 0; PInt 1] = PTuple [PInt i; PInt j]) \/
   exists v,
     (PTuple [PInt 0; PInt 1], v)
     ∈ [(PStr "0,0", PInt (-1)); (PStr "1,1", PInt (-1));
        (PStr "0,1", PInt 2)]).
Proof.
  split; [reflexivity|].
  apply (format_pairs_keys sample_float_of_str
           [(PStr "0,0", PInt (-1)); (PStr "1,1", PInt (-1));
            (PStr "0,1", PInt 2)]
           [(PTuple [PInt 0; PInt 0], inject_Z (-1));
            (PTuple [PInt 1; PInt 1], inject_Z (-1));
            (PTuple [PInt 0; PInt 1], inject_Z 2)]
           (PTuple [PInt 0; PInt 1])).
  - reflexivity.
  - simpl. do 2 apply list_elem_of_further. apply list_elem_of_here.
Defined.

(** X19: [sample_Q] has three entries and two variables. *)
Lemma create_qubo_num_variables_bound_witness :
  exists items, sample_Q = PDict items /\ 0 <= 2 <= 2 * len items.
Proof.
  apply (create_qubo_num_variables_bound sample_uuid4 sample_float_of_str
           sample_Q (PStr "") (start None) after_create
           {| created_problem_id := "uuid-0"; type := "qubo";
              description := PStr ""; num_variables := 2 |}).
  reflexivity.
Defined.

(** X20: [sample_h] with [sample_J], and with a [J] over variables [h] does
    not have. *)
Lemma create_ising_counts_h_only_witness :
  exists r r',
    fst (create_ising sample_uuid4 sample_float_of_str sample_h sample_J
           (PStr "") (start None)) = Return r /\
    fst (create_ising sample_uuid4 sample_float_of_str sample_h
           (PDict [(PStr "7,8", PInt 1); (PStr "8,9", PInt 1)])
           (PStr "wide") after_create) = Return r' /\
    num_variables r = num_variables r'.
Proof.
  eexists _, _. split; [reflexivity|]. split; [reflexivity|].
  apply (create_ising_counts_h_only sample_uuid4 sample_float_of_str
           sample_h sample_J
           (PDict [(PStr "7,8", PInt 1); (PStr "8,9", PInt 1)])
           (PStr "") (PStr "wide") (start None)
           (snd (create_ising sample_uuid4 sample_float_of_str sample_h
                   sample_J (PStr "") (start None)))
           after_create
           (snd (create_ising sample_uuid4 sample_float_of_str sample_h
                   (PDict [(PStr "7,8", PInt 1); (PStr "8,9", PInt 1)])
                   (PStr "wide") after_create))).
  - reflexivity.
  - reflexivity.
Defined.

(** X21: an identifier that is not stored. *)
Lemma call_tool_error_causes_witness :
  call_tool sample_uuid4 sample_float_of_str "solve_problem"
    (<["problem_id" := PStr "nowhere"]> ∅) after_create
  = (Raise (NoMessageWhile (ProblemNotFound (PStr "nowhere"))),
     after_create) /\
  (<["problem_id" := PStr "nowhere"]> ∅ : gmap string pyval) !! "problem_id"
  = Some (PStr "nowhere").
Proof.
  assert (Hcall :
    call_tool sample_uuid4 sample_float_of_str "solve_problem"
      (<["problem_id" := PStr "nowhere"]> ∅) after_create
    = (Raise (NoMessageWhile (ProblemNotFound (PStr "nowhere"))),
       after_create)) by reflexivity.
  split; [exact Hcall|].
  destruct (call_tool_error_causes sample_uuid4 sample_float_of_str
              "solve_problem" (<["problem_id" := PStr "nowhere"]> ∅)
              after_create after_create _ Hcall)
    as (context & [= <-] & _ & _ & H & _).
  exact H.
Defined.

(** X22: the status before and after [sample_Q] is created. *)
Lemma call_tool_status_reads_config_witness :
  fst (call_tool sample_uuid4 sample_float_of_str "get_simulator_status" ∅
         (start None))
  = fst (call_tool sample_uuid4 sample_float_of_str "get_simulator_status"
           (<["verbose" := PBool true]> ∅) after_create).
Proof.
  apply (proj2 (call_tool_status_reads_config sample_uuid4
                  sample_float_of_str "get_simulator_status" ∅
                  (<["verbose" := PBool true]> ∅) (start None) after_create
                  (or_introl eq_refl))).
  reflexivity.
Defined.

(** X23: [sample_Q] without a description, through the adapter and through
    the dispatcher. *)
Lemma api_create_qubo_as_call_tool_witness :
  exists r r',
    fst (api_create_qubo sample_uuid4 sample_float_of_str sample_Q None
           (start None)) = Return r /\
    fst (call_tool sample_uuid4 sample_float_of_str "create_qubo"
           (<["Q" := sample_Q]> ∅) (start None))
    = Return [ {| content_type := "text"; text := OfCreate r' |} ] /\
    num_variables r' = num_variables r /\
    description r = PStr "QUBO problem" /\
    description r' = PStr "".
Proof.
  pose proof (api_create_qubo_as_call_tool sample_uuid4 sample_float_of_str
                sample_Q None (<["Q" := sample_Q]> ∅) (start None)
                eq_refl eq_refl) as H.
  hnf in H. destruct H as (r' & fq & Hc & _ & _ & Hn & Hd & Hd' & _).
  eexists _, r'. split; [reflexivity|].
  split; [rewrite <- Hc; reflexivity|].
  split; [exact Hn|]. split; [exact Hd|exact Hd'].
Defined.
